(** * JARVIS data access and phono3py helpers: a shallow embedding

    The development follows the three Python modules of the repository:

    - [jarvis/db/figshare.py]          (module [figshare])
    - [jarvis/io/phono3py/inputs.py]   (module [phono3py_inputs])
    - [jarvis/io/phono3py/outputs.py]  (module [phono3py_outputs])

    Python functions become Rocq functions in a small state-and-exception
    monad [py]: the state holds the files on disk and the log of observable
    events (printing, HTTP requests, discarded exception objects, shell
    commands).  Library calls whose code lives outside the repository
    (requests, zipfile, json, numpy, spglib) are fields of the records that
    the functions take as their first argument.  The definitions come
    first, module by module; the properties follow. *)

From Stdlib Require Import ZArith QArith String Ascii List Reals Lra.
From Stdlib Require Import DecimalString.
From stdpp Require Import gmap strings list fin_maps.

Set Warnings "-register-all".

Open Scope string_scope.

(** ** Python outcomes *)

(** The exceptions that the modelled code can raise.  [External] stands for
    any exception raised inside a library call (network failure, bad zip
    archive, JSON decoding error, ...). *)
Inductive exn : Type :=
  | ValueError (args : list string)
  | UnboundLocalError (var : string)
  | NameError (name : string)
  | KeyError (key : string)
  | IndexError
  | TypeError
  | ZeroDivisionError
  | FileNotFoundError (path : string)
  | Exception_ (msg : string)
  | External (what : string).

Inductive result (A : Type) : Type :=
  | Returned (a : A)
  | Raised (e : exn).
Arguments Returned {A} a.
Arguments Raised {A} e.

(** Observable events, in the order in which they happen. *)
Inductive event : Type :=
  | Printed (s : string)        (* print(s) *)
  | HttpGet (url : string)      (* requests.get(url) *)
  | Discard (e : exn)           (* an expression statement whose value, an
                                   exception object, is dropped *)
  | Shell (cmd : string).       (* subprocess.call(cmd, shell=True) *)

(** The state threaded through the code: the files on disk (path to text)
    and the event log. *)
Record state : Type := mkState {
  files : gmap string string;
  log : list event
}.

Definition py (A : Type) : Type := state -> result A * state.

Definition ret {A} (a : A) : py A := fun s => (Returned a, s).

Definition raise {A} (e : exn) : py A := fun s => (Raised e, s).

Definition bind {A B} (m : py A) (k : A -> py B) : py B :=
  fun s => match m s with
           | (Returned a, s') => k a s'
           | (Raised e, s') => (Raised e, s')
           end.

Definition emit (ev : event) : py unit :=
  fun s => (Returned tt, mkState (files s) (log s ++ [ev])).

Definition lift {A} (r : result A) : py A := fun s => (r, s).

Declare Scope py_scope.
Delimit Scope py_scope with py.
Notation "'do' x <- m ; k" := (bind m (fun x => k))
  (at level 10, x pattern, m at level 100, k at level 200) : py_scope.
Notation "m ;; k" := (bind m (fun _ => k))
  (at level 100, k at level 200, right associativity) : py_scope.
Open Scope py_scope.

Definition print (s : string) : py unit := emit (Printed s).

(** [e] as an expression statement, [e] being an exception object. *)
Definition discard (e : exn) : py unit := emit (Discard e).

(** The state after a run that only appends the events [evs]. *)
Definition logs (s : state) (evs : list event) : state :=
  mkState (files s) (log s ++ evs).

(** No HTTP request among the events. *)
Definition http_free (evs : list event) : Prop :=
  forall u, HttpGet u ∉ evs.

(** ** Numbers *)

(** The arithmetic of the floating-point numbers of the code, as an
    interface: constants, the four operations, negation and the two
    comparisons, with the few laws the proofs below rely on.  The laws hold
    for exact arithmetic and for IEEE binary64 on finite values (addition
    is commutative and rounding is symmetric under negation). *)
Class Arith (F : Type) : Type := mkArith {
  f0 : F;
  f1 : F;
  f2 : F;
  fadd : F -> F -> F;
  fsub : F -> F -> F;
  fmul : F -> F -> F;
  fdiv : F -> F -> F;
  fopp : F -> F;
  feqb : F -> F -> bool;
  fltb : F -> F -> bool;
  fadd_comm : forall x y, fadd x y = fadd y x;
  fopp_fadd : forall x y, fopp (fadd x y) = fadd (fopp x) (fopp y);
  fopp_fopp : forall x, fopp (fopp x) = x;
  fopp_fdiv : forall x y, fopp (fdiv x y) = fdiv (fopp x) y
}.

(** The constant and the elementary functions that [get_hk_tb] takes from
    numpy: [np.pi], and exp, cos and sin on real arguments. *)
Class Trig (F : Type) : Type := mkTrig {
  fpi : F;
  fexp : F -> F;
  fcos : F -> F;
  fsin : F -> F
}.

(** Exact arithmetic on the rationals: an instance that computes. *)
#[export, refine] Instance Q_arith : Arith Q := {|
  f0 := 0%Q;
  f1 := 1%Q;
  f2 := 2%Q;
  fadd := Qplus;
  fsub := Qminus;
  fmul := Qmult;
  fdiv := Qdiv;
  fopp := Qopp;
  feqb := Qeq_bool;
  fltb := fun x y => negb (Qle_bool y x)
|}.
Proof.
  - abstract (intros [a b] [c d]; unfold Qplus; simpl;
              f_equal; [apply Z.add_comm | apply Pos.mul_comm]).
  - abstract (intros [a b] [c d]; unfold Qplus, Qopp; simpl; f_equal;
              rewrite Z.opp_add_distr, !Z.mul_opp_l; reflexivity).
  - abstract (intros [a b]; unfold Qopp; simpl;
              now rewrite Z.opp_involutive).
  - abstract (intros [a b] y; unfold Qdiv, Qmult, Qopp; simpl;
              now rewrite Z.mul_opp_l).
Defined.

(** Exact arithmetic on the real numbers, with the elementary functions. *)
#[export, refine] Instance R_arith : Arith R := {|
  f0 := 0%R;
  f1 := 1%R;
  f2 := 2%R;
  fadd := Rplus;
  fsub := Rminus;
  fmul := Rmult;
  fdiv := Rdiv;
  fopp := Ropp;
  feqb := fun x y => if Req_dec_T x y then true else false;
  fltb := fun x y => if Rlt_dec x y then true else false
|}.
Proof.
  - exact Rplus_comm.
  - exact Ropp_plus_distr.
  - exact Ropp_involutive.
  - abstract (intros x y; unfold Rdiv; now rewrite Ropp_mult_distr_l).
Defined.

#[export] Instance R_trig : Trig R := {|
  fpi := PI;
  fexp := exp;
  fcos := cos;
  fsin := sin
|}.

(** Python's [x / y] on floats. *)
Definition py_truediv {F} `{Arith F} (x y : F) : result F :=
  if feqb y f0 then Raised ZeroDivisionError else Returned (fdiv x y).

(** Complex numbers (numpy's complex128) as pairs (real, imaginary). *)
Definition complex (F : Type) : Type := (F * F)%type.

Section Complex.

Context {F : Type} `{Arith F} `{Trig F}.

Local Abbreviation complex := (complex F).

Definition C0 : complex := (f0, f0).
Definition Cj : complex := (f0, f1).                       (* 1.0j *)
Definition C_of_real (x : F) : complex := (x, f0).

Definition Cadd (z u : complex) : complex :=
  (fadd (fst z) (fst u), fadd (snd z) (snd u)).

Definition Cmul (z u : complex) : complex :=
  (fsub (fmul (fst z) (fst u)) (fmul (snd z) (snd u)),
   fadd (fmul (fst z) (snd u)) (fmul (snd z) (fst u))).

Definition Cconj (z : complex) : complex := (fst z, fopp (snd z)).

(** Division of a complex number by a real one, componentwise. *)
Definition Cdiv_real (z : complex) (x : F) : complex :=
  (fdiv (fst z) x, fdiv (snd z) x).

(** [np.exp] on a complex number. *)
Definition Cexp (z : complex) : complex :=
  (fmul (fexp (fst z)) (fcos (snd z)), fmul (fexp (fst z)) (fsin (snd z))).

End Complex.

(** Sequencing of computations that may raise. *)
Definition rbind {A B} (r : result A) (k : A -> result B) : result B :=
  match r with
  | Returned a => k a
  | Raised e => Raised e
  end.

Notation "'let?' x := r 'in' k" := (rbind r (fun x => k))
  (at level 10, x pattern, r at level 100, k at level 200).

(** [map] for a function that may raise, left to right. *)
Fixpoint rmap {A B} (f : A -> result B) (l : list A) : result (list B) :=
  match l with
  | [] => Returned []
  | x :: rest =>
      let? y := f x in
      let? ys := rmap f rest in
      Returned (y :: ys)
  end.

(** ** Paths and text *)

(** [os.path.join(d, f)] on POSIX. *)
Definition path_join (d f : string) : string :=
  if String.prefix "/" f then f
  else if (d =? "")%string then f
  else if String.eqb (substring (String.length d - 1) 1 d) "/" then d ++ f
  else d ++ "/" ++ f.

(** [sep.join(l)] *)
Fixpoint py_join (sep : string) (l : list string) : string :=
  match l with
  | [] => ""
  | [x] => x
  | x :: rest => x ++ sep ++ py_join sep rest
  end.

(** [s.split(sep)[0]]: the text before the first occurrence of [sep]
    (all of [s] when [sep] does not occur). *)
Fixpoint before_first (sep s : string) : string :=
  match s with
  | EmptyString => EmptyString
  | String c s' =>
      if String.prefix sep s then EmptyString
      else String c (before_first sep s')
  end.

(** The newline character and the double quote, which string literals
    cannot hold directly. *)
Definition nl_char : ascii := "010"%char.
Definition nl : string := String nl_char "".
Definition quote_char : ascii := "034"%char.
Definition quote : string := String quote_char "".

(** [str(n)] for an integer. *)
Definition str_int (n : Z) : string := NilZero.string_of_int (Z.to_int n).

(** [s.count(c)] for a character. *)
Fixpoint count_char (c : ascii) (s : string) : nat :=
  match s with
  | EmptyString => 0
  | String d rest => (if Ascii.eqb c d then 1 else 0) + count_char c rest
  end.

(** The characters at which [str.splitlines] breaks a line (among the
    8-bit characters): LF, VT, FF, CR, FS, GS, RS and NEL. *)
Definition is_linebreak (c : ascii) : bool :=
  let n := nat_of_ascii c in
  (Nat.eqb n 10 || Nat.eqb n 11 || Nat.eqb n 12 || Nat.eqb n 13
   || Nat.eqb n 28 || Nat.eqb n 29 || Nat.eqb n 30 || Nat.eqb n 133)%bool.

(** [s.splitlines()]: CR LF counts as one break, and a break at the very
    end of the text opens no further line. *)
Fixpoint splitlines (s : string) : list string :=
  match s with
  | EmptyString => []
  | String c rest =>
      if is_linebreak c then
        match rest with
        | String d rest' =>
            if (Nat.eqb (nat_of_ascii c) 13 && Nat.eqb (nat_of_ascii d) 10)%bool
            then EmptyString :: splitlines rest'
            else EmptyString :: splitlines rest
        | EmptyString => [EmptyString]
        end
      else
        match splitlines rest with
        | [] => [String c EmptyString]
        | line :: lines => String c line :: lines
        end
  end.

(** The lines of a text file: the pieces between newline characters,
    [s.split("\n")]. *)
Fixpoint split_nl (s : string) : list string :=
  match s with
  | EmptyString => [EmptyString]
  | String c rest =>
      if Ascii.eqb c nl_char then EmptyString :: split_nl rest
      else match split_nl rest with
           | [] => [String c EmptyString]
           | line :: lines => String c line :: lines
           end
  end.

Definition no_newline (s : string) : Prop := count_char nl_char s = 0.

(** ** Files *)

(** [os.path.isfile(path)] *)
Definition isfile (path : string) : py bool :=
  fun s => (Returned (bool_decide (is_Some (files s !! path))), s).

(** [open(path, "r").read()] *)
Definition read_file (path : string) : py string :=
  fun s => match files s !! path with
           | Some text => (Returned text, s)
           | None => (Raised (FileNotFoundError path), s)
           end.

(** [f = open(path, "w"); f.write(text)], the file closed afterwards. *)
Definition write_file (path text : string) : py unit :=
  fun s => (Returned tt, mkState (<[path := text]> (files s)) (log s)).

(** [os.remove(path)] *)
Definition remove_file (path : string) : py unit :=
  fun s => match files s !! path with
           | Some _ => (Returned tt, mkState (delete path (files s)) (log s))
           | None => (Raised (FileNotFoundError path), s)
           end.

(** The files after [ZipFile.extractall(dir)] on the given members. *)
Definition extract_into (dir : string) (members : list (string * string))
    (fs : gmap string string) : gmap string string :=
  fold_left (fun acc m => <[path_join dir (fst m) := snd m]> acc) members fs.

Definition extractall (dir : string) (members : list (string * string))
    : py unit :=
  fun s => (Returned tt, mkState (extract_into dir members (files s)) (log s)).

(** A [for] loop whose body updates the local variables [st]. *)
Fixpoint for_each {A S : Type} (body : S -> A -> py S) (l : list A) (st : S)
    : py S :=
  match l with
  | [] => ret st
  | x :: rest => do st' <- body st x; for_each body rest st'
  end.

(** Reading a local variable; [None] is a variable that has not been
    assigned. *)
Definition read_local {A} (name : string) (v : option A) : py A :=
  match v with
  | Some x => ret x
  | None => raise (UnboundLocalError name)
  end.

(** * jarvis/db/figshare.py *)

Module figshare.

(** What the module takes from outside the repository, for a type [json] of
    decoded JSON documents: [requests.get(url).content], the members
    (name, content) of a zip archive given its bytes, JSON decoding of a
    text, and [os.path.dirname(__file__)], the directory that holds the
    module and serves as its cache directory. *)
Record libs (json : Type) : Type := mkLibs {
  requests_get : string -> result string;
  zip_members : string -> result (list (string * string));
  json_loads : string -> result json;
  module_dir : string
}.
Arguments requests_get {json} _ _.
Arguments zip_members {json} _ _.
Arguments json_loads {json} _ _.
Arguments module_dir {json} _.

(** The local variables [url] and [js_tag] of [datasets]. *)
Record locals : Type := mkLocals {
  url : option string;
  js_tag : option string
}.

Definition assigned (u t : string) : locals := mkLocals (Some u) (Some t).
Definition unassigned : locals := mkLocals None None.

(** An entry of a list of the raw-file index [fls = data("raw_files")]:
    a dict with its ["name"] and ["download_url"], or some other value. *)
Inductive index_entry : Type :=
  | Dict (name download_url : string)
  | NotADict.

(** The two lists of the index that the fetchers read, [fls["WANN"]] and
    [fls["FD-ELAST"]]. *)
Record raw_index : Type := mkIndex {
  WANN : list index_entry;
  FD_ELAST : list index_entry
}.

(** No entry of the list is the archive of [jid]. *)
Definition no_match (jid : string) (l : list index_entry) : Prop :=
  forall name download_url,
    Dict name download_url ∈ l -> before_first ".zip" name <> jid.

(** Every entry of the list is a dict. *)
Definition all_dicts (l : list index_entry) : Prop :=
  Forall (fun i => i <> NotADict) l.

(** A variable that holds either the string it was initialised with or an
    object. *)
Inductive slot (A : Type) : Type :=
  | Str (s : string)
  | Obj (a : A).
Arguments Str {A} s.
Arguments Obj {A} a.

(** The work done on a downloaded archive, all of it in library code:
    for the electron archive (lines 197-214) the WannierHam, the Fermi
    energy and the atoms; for the phonon archive (lines 227-241) the
    WannierHam and the atoms.  [import_phonopy_outputs] is the import at
    the head of [get_wann_phonon], which needs phonopy. *)
Record wann_libs (wannier_ham efermi atoms : Type) : Type := mkWannLibs {
  read_electron_archive :
    string -> string -> result (wannier_ham * efermi * atoms);
  read_phonon_archive : string -> result (wannier_ham * atoms);
  import_phonopy_outputs : result unit
}.
Arguments read_electron_archive {_ _ _} _ _ _.
Arguments read_phonon_archive {_ _ _} _ _.
Arguments import_phonopy_outputs {_ _ _} _.

Section Figshare.

Context {json : Type} (L : libs json).

Definition http_get (url : string) : py string :=
  emit (HttpGet url) ;; lift (requests_get L url).

(** The ["stm_2d"] branch (lines 32-64).  Neither [mpimg] nor [img_str] is
    defined anywhere in the module, so the first iteration of the loop over
    the archive members stops at the global lookup of [mpimg]; with no
    member the loop body is skipped.  The branch assigns neither [url] nor
    [js_tag]. *)
Definition stm_2d_branch : py locals :=
  do r_jpg <- http_get "https://ndownloader.figshare.com/files/21884952";
  do z <- lift (zip_members L r_jpg);
  do r_json <- http_get "https://ndownloader.figshare.com/files/21893379";
  do latts <- lift (json_loads L r_json);
  match map fst z with
  | [] => print "Obtaining 2D STM dataset ..." ;; ret unassigned
  | i :: _ => raise (NameError "mpimg")
  end.

(** The if/elif chain of [datasets] (lines 22-131), up to the [return]. *)
Definition datasets_chain (dataset : string) : py locals :=
  if dataset =? "dft_2d" then
    print "Obtaining 2D dataset ..." ;;
    ret (assigned "https://ndownloader.figshare.com/files/22471019"
                  "jdft_2d-4-26-2020.json")
  else if dataset =? "dft_3d" then
    print "Obtaining 3D dataset ..." ;;
    ret (assigned "https://ndownloader.figshare.com/files/22471022"
                  "jdft_3d-4-26-2020.json")
  else if dataset =? "stm_2d" then
    stm_2d_branch
  else if dataset =? "cfid_3d" then
    print "Obtaining JARVIS-3D CFID dataset 37k..." ;;
    ret (assigned "https://ndownloader.figshare.com/files/22470818"
                  "jml_3d-4-26-2020.json")
  else if dataset =? "mp_3d" then
    print "Obtaining Materials Project-3D CFID dataset 84k..." ;;
    ret (assigned "https://ndownloader.figshare.com/files/24979850"
                  "CFID_mp_desc_data_84k.json")
  else if dataset =? "mp_3d_2020" then
    print "Obtaining Materials Project-3D CFID dataset 127k..." ;;
    ret (assigned "https://ndownloader.figshare.com/files/26791259"
                  "all_mp.json")
  else if dataset =? "megnet" then
    print "Obtaining MEGNET-3D CFID dataset 69k..." ;;
    ret (assigned "https://ndownloader.figshare.com/files/26724977"
                  "megnet.json")
  else if dataset =? "oqmd_3d" then
    print "Obtaining OQMD-3D CFID dataset 460k..." ;;
    ret (assigned "https://ndownloader.figshare.com/files/24981170"
                  "CFID_OQMD_460k.json")
  else if dataset =? "oqmd_3d_no_cfid" then
    print "Obtaining OQMD-3D  dataset 800k..." ;;
    ret (assigned "https://ndownloader.figshare.com/files/26790182"
                  "all_oqmd.json")
  else if dataset =? "twod_matpd" then
    print "Obtaining 2DMatPedia dataset 6k..." ;;
    ret (assigned "https://ndownloader.figshare.com/files/26789006"
                  "twodmatpd.json")
  else if dataset =? "qm9" then
    print "Obtaining QM9-molecule CFID dataset 134k..." ;;
    ret (assigned "https://ndownloader.figshare.com/files/25159592"
                  "qm9_data_cfid.json")
  else if dataset =? "aflow1" then
    print "Obtaining AFLOW-1 CFID dataset 400k..." ;;
    ret (assigned "https://ndownloader.figshare.com/files/25453256"
                  "CFID_AFLOW1.json")
  else if dataset =? "aflow2" then
    print "Obtaining AFLOW-2 CFID dataset 400k..." ;;
    ret (assigned "https://ndownloader.figshare.com/files/25453265"
                  "CFID_AFLOW2.json")
  else if dataset =? "arXiv" then
    print "Obtaining arXiv dataset..." ;;
    ret (assigned "https://ndownloader.figshare.com/files/26804795"
                  "arXivdataset.json")
  else if dataset =? "cord19" then
    print "Obtaining CORD19 dataset..." ;;
    ret (assigned "https://ndownloader.figshare.com/files/26804798"
                  "cord19.json")
  else if dataset =? "raw_files" then
    print "Obtaining raw io files..." ;;
    ret (assigned "https://ndownloader.figshare.com/files/25295732"
                  "figshare_data-10-28-2020.json")
  else
    discard (ValueError ["Dataset doesnt exist"; dataset]) ;;
    ret unassigned.

(** [datasets(dataset)]: the chain, then [return url, js_tag]. *)
Definition datasets (dataset : string) : py (string * string) :=
  do l <- datasets_chain dataset;
  do u <- read_local "url" (url l);
  do t <- read_local "js_tag" (js_tag l);
  ret (u, t).

(** The catalog.  Its names are the dataset names that the chain tests, in
    the order of the chain; its entries are the (download URL, cached file
    name) pairs that the branches assign.  The branch of "stm_2d" assigns
    neither variable, so that this name has no entry. *)
Definition catalog_names : list string :=
  [ "dft_2d"; "dft_3d"; "stm_2d"; "cfid_3d"; "mp_3d"; "mp_3d_2020"; "megnet";
    "oqmd_3d"; "oqmd_3d_no_cfid"; "twod_matpd"; "qm9"; "aflow1"; "aflow2";
    "arXiv"; "cord19"; "raw_files" ].

Definition catalog_entries : list (string * (string * string)) :=
  [ ("dft_2d", ("https://ndownloader.figshare.com/files/22471019",
                "jdft_2d-4-26-2020.json"));
    ("dft_3d", ("https://ndownloader.figshare.com/files/22471022",
                "jdft_3d-4-26-2020.json"));
    ("cfid_3d", ("https://ndownloader.figshare.com/files/22470818",
                 "jml_3d-4-26-2020.json"));
    ("mp_3d", ("https://ndownloader.figshare.com/files/24979850",
               "CFID_mp_desc_data_84k.json"));
    ("mp_3d_2020", ("https://ndownloader.figshare.com/files/26791259",
                    "all_mp.json"));
    ("megnet", ("https://ndownloader.figshare.com/files/26724977",
                "megnet.json"));
    ("oqmd_3d", ("https://ndownloader.figshare.com/files/24981170",
                 "CFID_OQMD_460k.json"));
    ("oqmd_3d_no_cfid", ("https://ndownloader.figshare.com/files/26790182",
                         "all_oqmd.json"));
    ("twod_matpd", ("https://ndownloader.figshare.com/files/26789006",
                    "twodmatpd.json"));
    ("qm9", ("https://ndownloader.figshare.com/files/25159592",
             "qm9_data_cfid.json"));
    ("aflow1", ("https://ndownloader.figshare.com/files/25453256",
                "CFID_AFLOW1.json"));
    ("aflow2", ("https://ndownloader.figshare.com/files/25453265",
                "CFID_AFLOW2.json"));
    ("arXiv", ("https://ndownloader.figshare.com/files/26804795",
               "arXivdataset.json"));
    ("cord19", ("https://ndownloader.figshare.com/files/26804798",
                "cord19.json"));
    ("raw_files", ("https://ndownloader.figshare.com/files/25295732",
                   "figshare_data-10-28-2020.json")) ].

Definition catalog : gmap string (string * string) :=
  list_to_map catalog_entries.

(** Modelled from the spec: [jarvis.db.jsonutils.loadjson] is not among the
    sources; per the spec the fetcher "decodes the contained JSON payload"
    and "no transformation of the data occurs": the file is read and its
    text decoded. *)
Definition loadjson (path : string) : py json :=
  do text <- read_file path;
  lift (json_loads L text).

(** [data(dataset)] (lines 135-163). *)
Definition data (dataset : string) : py json :=
  do ut <- datasets dataset;
  let path := path_join (module_dir L) (snd ut) in
  do cached <- isfile path;
  (if negb cached then
     let zfile := path_join (module_dir L) "tmp.zip" in
     do content <- http_get (fst ut);
     write_file zfile content ;;
     do archive <- read_file zfile;
     do members <- lift (zip_members L archive);
     extractall (module_dir L) members ;;
     remove_file zfile
   else ret tt) ;;
  loadjson path.

(** *** The specialized record fetchers *)

Context {wannier_ham efermi atoms : Type}.
Context (X : wann_libs wannier_ham efermi atoms).
Context (fls : raw_index).

(** The local variables of [get_wann_electron]. *)
Record electron_locals : Type := mkElectron {
  w : slot wannier_ham;
  ef : slot efermi;
  atoms_var : option atoms
}.

(** One iteration of the loop of [get_wann_electron] (lines 195-214). *)
Definition electron_body (jid : string) (st : electron_locals)
    (i : index_entry) : py electron_locals :=
  match i with
  | NotADict => raise TypeError
  | Dict name download_url =>
      if before_first ".zip" name =? jid then
        do content <- http_get download_url;
        do r <- lift (read_electron_archive X content jid);
        ret (mkElectron (Obj (fst (fst r))) (Obj (snd (fst r)))
                        (Some (snd r)))
      else ret st
  end.

(** [get_wann_electron(jid)] (lines 190-215): [w] and [ef] start as empty
    strings, [atoms] is assigned only inside the matching branch. *)
Definition get_wann_electron (jid : string)
    : py (slot wannier_ham * slot efermi * atoms) :=
  do st <- for_each (electron_body jid) (WANN fls)
                    (mkElectron (Str "") (Str "") None);
  do a <- read_local "atoms" (atoms_var st);
  ret (w st, ef st, a).

(** The loop of [get_wann_phonon] (lines 223-242); it returns from inside
    the loop at the first match and falls off the end otherwise. *)
Fixpoint phonon_loop (jid : string) (l : list index_entry)
    : py (option (wannier_ham * atoms)) :=
  match l with
  | [] => ret None
  | NotADict :: rest => phonon_loop jid rest
  | Dict name download_url :: rest =>
      if before_first ".zip" name =? jid then
        do content <- http_get download_url;
        do r <- lift (read_phonon_archive X content);
        ret (Some r)
      else phonon_loop jid rest
  end.

(** [get_wann_phonon(jid, factor)]; [factor] is only handed to the library
    call and does not appear here. *)
Definition get_wann_phonon (jid : string)
    : py (option (wannier_ham * atoms)) :=
  lift (import_phonopy_outputs X) ;;
  phonon_loop jid (FD_ELAST fls).

End Figshare.

(** *** The tight-binding evaluator *)

(** Modelled from the spec: [jarvis.io.wannier.outputs.WannierHam] is not
    among the sources.  Per the spec it carries a "real-space Hamiltonian
    and lattice-vector list"; [get_hk_tb] reads [nwan], the array [R] of
    shape (nr, 3) and the array [HR] of shape (nr, nwan ** 2), row [r] of
    [HR] being the flattened matrix of lattice vector [r]. *)
Record WannierHam (F : Type) : Type := mkWannierHam {
  nwan : nat;
  R : list (list F);
  HR : list (list (complex F))
}.
Arguments nwan {F} _.
Arguments R {F} _.
Arguments HR {F} _.

Section TightBinding.

Context {F : Type} `{Arith F} `{Trig F}.

Local Abbreviation complex := (complex F).

Definition shape_error {A} : result A :=
  Raised (ValueError ["operands could not be broadcast together"]).

(** Elementwise product of two rows.  Rows of unequal length are an error
    here; numpy would stretch a one-component row, which the three-column
    arrays of a WannierHam never are. *)
Definition mul_rows (a b : list F) : result (list F) :=
  if Nat.eqb (length a) (length b) then Returned (zip_with fmul a b)
  else shape_error.

(** [a * b] on two-dimensional arrays of the same shape. *)
Fixpoint mul_arrays (a b : list (list F)) : result (list (list F)) :=
  match a, b with
  | [], [] => Returned []
  | x :: a', y :: b' =>
      let? r := mul_rows x y in
      let? rs := mul_arrays a' b' in
      Returned (r :: rs)
  | _, _ => shape_error
  end.

(** [np.sum(a)] on a one-dimensional array. *)
Definition np_sum (a : list F) : F := fold_left fadd a f0.

(** [np.exp(1.0j * 2 * np.pi * x)] for a real [x]. *)
Definition exp_2pi_j (x : F) : complex :=
  Cexp (Cmul (Cmul (Cmul Cj (C_of_real f2)) (C_of_real fpi)) (C_of_real x)).

(** [temp += e * row] *)
Definition add_scaled (temp : list complex) (e : complex)
    (row : list complex) : result (list complex) :=
  if Nat.eqb (length row) (length temp)
  then Returned (zip_with Cadd temp (map (Cmul e) row))
  else shape_error.

(** The loop of lines 252-253 over the indices [idx]. *)
Fixpoint accumulate (exp_ikr : list complex) (hr : list (list complex))
    (idx : list nat) (temp : list complex) : result (list complex) :=
  match idx with
  | [] => Returned temp
  | i :: rest =>
      match exp_ikr !! i, hr !! i with
      | Some e, Some row =>
          let? temp' := add_scaled temp e row in
          accumulate exp_ikr hr rest temp'
      | _, _ => Raised IndexError
      end
  end.

(** [np.reshape(a, (rows, cols))], row-major. *)
Fixpoint reshape {A} (rows cols : nat) (a : list A) : list (list A) :=
  match rows with
  | O => []
  | S r => take cols a :: reshape r cols (drop cols a)
  end.

Definition ncols {A} (m : list (list A)) : nat :=
  match m with
  | [] => 0
  | row :: _ => length row
  end.

(** [m.T] *)
Definition transpose (m : list (list complex)) : list (list complex) :=
  map (fun j => map (fun row => nth j row C0) m) (seq 0 (ncols m)).

(** [m.conj()] *)
Definition conj (m : list (list complex)) : list (list complex) :=
  map (map Cconj) m.

(** [a + b] on matrices of the same shape. *)
Definition mat_add (a b : list (list complex)) : list (list complex) :=
  zip_with (zip_with Cadd) a b.

(** [m / x] for a real [x]. *)
Definition mat_div (m : list (list complex)) (x : F) : list (list complex) :=
  map (map (fun z => Cdiv_real z x)) m.

(** [(hk + hk.T.conj()) / 2.0] *)
Definition symmetrize (hk : list (list complex)) : list (list complex) :=
  mat_div (mat_add hk (conj (transpose hk))) f2.

(** [get_hk_tb(k, w)] (lines 245-256). *)
Definition get_hk_tb (k : list F) (w : WannierHam F)
    : result (list (list complex)) :=
  let nr := length (R w) in
  let kmat := replicate nr k in
  let? prod := mul_arrays kmat (R w) in
  let exp_ikr := map exp_2pi_j (map np_sum prod) in
  let temp := replicate (nwan w ^ 2) C0 in
  let? temp := accumulate exp_ikr (HR w) (seq 0 nr) temp in
  let hk := reshape (nwan w) (nwan w) temp in
  Returned (symmetrize hk).

(** The same quantity in the words of the spec: the lattice sum
    [sum over r of exp(2 pi i (k . R_r)) HR_r], reshaped, and its Hermitian
    symmetrization [(M + M^H) / 2]. *)
Definition dot (a b : list F) : F := np_sum (zip_with fmul a b).

Definition phase (k r : list F) : complex :=
  Cexp (Cmul (Cmul (Cmul Cj (C_of_real f2)) (C_of_real fpi))
             (C_of_real (dot k r))).

Definition vec_add (a b : list complex) : list complex := zip_with Cadd a b.

Definition fourier_sum (k : list F) (w : WannierHam F) : list complex :=
  fold_left vec_add
    (zip_with (fun r h => map (Cmul (phase k r)) h) (R w) (HR w))
    (replicate (nwan w ^ 2) C0).

Definition conj_transpose (m : list (list complex)) : list (list complex) :=
  conj (transpose m).

(** The shapes of the arguments of [get_hk_tb]: a wavevector of three
    components, [nr] lattice vectors of three components, and [nr] rows of
    [nwan ** 2] matrix elements. *)
Definition shapes_ok (k : list F) (w : WannierHam F) : Prop :=
  length k = 3 /\
  Forall (fun r => length r = 3) (R w) /\
  length (HR w) = length (R w) /\
  Forall (fun h => length h = nwan w ^ 2) (HR w).

(** The matrix with [n] rows and [n] columns whose entry at row [i] and
    column [j] is [f i j]. *)
Definition mat_of (n : nat) (f : nat -> nat -> complex)
    : list (list complex) :=
  map (fun i => map (fun j => f i j) (seq 0 n)) (seq 0 n).

Definition square (n : nat) (m : list (list complex)) : Prop :=
  length m = n /\ Forall (fun row => length row = n) m.

Definition entry (m : list (list complex)) (i j : nat) : complex :=
  nth j (nth i m []) C0.

End TightBinding.

(** *** The remaining fetchers *)

(** A decoded JSON document, as [json.loads] builds it; the members of a
    dict come in the order of the dict, each key once. *)
Inductive jvalue : Type :=
  | JNull
  | JBool (b : bool)
  | JNum (x : Q)
  | JStr (s : string)
  | JArr (items : list jvalue)
  | JObj (members : list (string * jvalue)).

(** What [for i in d] runs over: the items of a list, the keys of a dict,
    the characters of a string; no other document can be iterated. *)
Definition py_iter (d : jvalue) : result (list jvalue) :=
  match d with
  | JArr items => Returned items
  | JObj members => Returned (map (fun m => JStr (fst m)) members)
  | JStr s =>
      Returned (map (fun c => JStr (String c "")) (list_ascii_of_string s))
  | _ => Raised TypeError
  end.

Fixpoint member (key : string) (members : list (string * jvalue))
    : option jvalue :=
  match members with
  | [] => None
  | (k, v) :: rest => if k =? key then Some v else member key rest
  end.

(** [i[key]] for a string [key]: only a dict takes one. *)
Definition subscript (i : jvalue) (key : string) : result jvalue :=
  match i with
  | JObj members =>
      match member key members with
      | Some v => Returned v
      | None => Raised (KeyError key)
      end
  | _ => Raised TypeError
  end.

(** [v == s] for a string [s]. *)
Definition eq_str (v : jvalue) (s : string) : bool :=
  match v with
  | JStr t => t =? s
  | _ => false
  end.

(** The loop of [get_jid_data] (lines 169-171). *)
Fixpoint jid_loop (jid : string) (l : list jvalue) : result (option jvalue) :=
  match l with
  | [] => Returned None
  | i :: rest =>
      let? v := subscript i "jid" in
      if eq_str v jid then Returned (Some i) else jid_loop jid rest
  end.

(** [get_jid_data(jid, dataset)] (lines 166-171). *)
Definition get_jid_data (L : libs jvalue) (jid dataset : string)
    : py (option jvalue) :=
  do d <- data L dataset;
  do l <- lift (py_iter d);
  lift (jid_loop jid l).

(** The URL and the cached file of [get_ff_eneleast]. *)
Definition jff1_url : string :=
  "https://ndownloader.figshare.com/files/10307139".

Definition jff1_path {json : Type} (L : libs json) : string :=
  path_join (module_dir L) "jff1.json".

(** [get_ff_eneleast()] (lines 174-183). *)
Definition get_ff_eneleast {json : Type} (L : libs json) : py json :=
  let jff1 := jff1_path L in
  do cached <- isfile jff1;
  (if negb cached then
     do content <- http_get L jff1_url;
     write_file jff1 content
   else ret tt) ;;
  loadjson L jff1.

(** The download URLs of the entries of a list that are the archive of
    [jid], in the order of the list. *)
Fixpoint matching_urls (jid : string) (l : list index_entry) : list string :=
  match l with
  | [] => []
  | NotADict :: rest => matching_urls jid rest
  | Dict name download_url :: rest =>
      if before_first ".zip" name =? jid
      then download_url :: matching_urls jid rest
      else matching_urls jid rest
  end.

(** What the matching branch of [get_wann_electron] makes of a URL, the
    request apart. *)
Definition electron_fetch {json wannier_ham efermi atoms : Type}
    (L : libs json) (X : wann_libs wannier_ham efermi atoms)
    (jid download_url : string) : result (wannier_ham * efermi * atoms) :=
  let? content := requests_get L download_url in
  read_electron_archive X content jid.

(** The local variables of [get_wann_electron] after the archive [r] has
    been read. *)
Definition assigned_from {wannier_ham efermi atoms : Type}
    (r : wannier_ham * efermi * atoms)
    : electron_locals (wannier_ham := wannier_ham) (efermi := efermi)
                      (atoms := atoms) :=
  mkElectron (Obj (fst (fst r))) (Obj (snd (fst r))) (Some (snd r)).

(** A Hamiltonian with another array [HR]. *)
Definition with_HR {F : Type} (w : WannierHam F)
    (hr : list (list (complex F))) : WannierHam F :=
  mkWannierHam F (nwan w) (R w) hr.

(** A character does not occur in a text. *)
Definition lacks (c : ascii) (s : string) : Prop := count_char c s = 0.

End figshare.

(** * jarvis/io/phono3py/inputs.py *)

Module phono3py_inputs.

(** What [prepare_jdos] reads from its Phonopy object: the supercell
    dimensions [phonopy_obj.scell_dim], and the distinct entries of the
    grid mapping that spglib computes for a mesh,
    [np.unique(spglib.get_ir_reciprocal_mesh(mesh, cell, ...)[0])]. *)
Record phonopy_obj : Type := mkPhonopy {
  scell_dim : list Z;
  ir_gridpoints : list Z -> list Z
}.

(** [" ".join([str(d) for d in l])] *)
Definition join_ints (l : list Z) : string := py_join " " (map str_int l).

(** The command string that [prepare_jdos] builds (lines 53-73).  The
    parameter [scell_dim] of the Python function is never read and is left
    out. *)
Definition prepare_jdos_cmd (obj : phonopy_obj) (poscar : string)
    (mesh : list Z) (temperatures : option (list Z)) (num_freq_points : Z)
    (pa : option (list Z)) : string :=
  let gridpt_uids := ir_gridpoints obj mesh in
  let dim := scell_dim obj in
  let phono3py_cmd :=
    "phono3py --fc2 --dim=" ++ quote
    ++ join_ints dim
    ++ quote ++ " --mesh=" ++ quote
    ++ join_ints mesh
    ++ quote ++ " -c "
    ++ poscar
    ++ " --jdos"
    ++ " --gp=" ++ quote
    ++ join_ints gridpt_uids
    ++ quote ++ " --num-freq-points="
    ++ str_int num_freq_points in
  let phono3py_cmd :=
    match temperatures with
    | Some ts => phono3py_cmd ++ quote ++ " --ts=" ++ quote ++ join_ints ts
    | None => phono3py_cmd
    end in
  match pa with
  | Some pa => phono3py_cmd ++ " --pa= " ++ quote ++ join_ints pa ++ quote
  | None => phono3py_cmd
  end.

(** The number of double quotes in a text, and the number that an optional
    argument of [prepare_jdos] adds to the command. *)
Definition quotes (s : string) : nat := count_char quote_char s.

Definition added (o : option (list Z)) : nat :=
  match o with
  | Some _ => 2
  | None => 0
  end.

(** [prepare_jdos]: print the command and, when [run] is set, execute it. *)
Definition prepare_jdos (obj : phonopy_obj) (poscar : string)
    (mesh : list Z) (temperatures : option (list Z)) (num_freq_points : Z)
    (pa : option (list Z)) (run : bool) : py unit :=
  let phono3py_cmd :=
    prepare_jdos_cmd obj poscar mesh temperatures num_freq_points pa in
  print phono3py_cmd ;;
  if run then emit (Shell phono3py_cmd) else ret tt.

(** Python's conversions between floats and text: [float(s)], which raises
    on text that is not a number, and [str(x)]. *)
Record float_text (F : Type) : Type := mkFloatText {
  parse_float : string -> result F;
  str_float : F -> string
}.
Arguments parse_float {F} _ _.
Arguments str_float {F} _ _.

Section Gruneisen.

Context {F : Type} `{Arith F} (T : float_text F).

(** [l[i]] for a non-negative index. *)
Definition getitem (l : list string) (i : nat) : py string :=
  match l !! i with
  | Some x => ret x
  | None => raise IndexError
  end.

(** [prepare_gruneisen_quasiharmonic(orig_poscar, scale)] (lines 84-101). *)
Definition prepare_gruneisen_quasiharmonic (orig_poscar : string) (scale : F)
    : py unit :=
  do text <- read_file orig_poscar;
  let pos_text := splitlines text in
  do l1 <- getitem pos_text 1;
  do x <- lift (parse_float T l1);
  let scale_plus := fmul x scale in
  do l1 <- getitem pos_text 1;
  do x <- lift (parse_float T l1);
  do scale_minus <- lift (py_truediv x scale);
  let pos_text := <[1 := str_float T scale_plus]> pos_text in
  write_file "POSCAR-plus" (py_join nl pos_text) ;;
  let pos_text := <[1 := str_float T scale_minus]> pos_text in
  write_file "POSCAR-minus" (py_join nl pos_text).

End Gruneisen.

(** The files after a successful call: POSCAR-plus, then POSCAR-minus. *)
Definition written (s : state) (plus minus : string) : state :=
  mkState (<["POSCAR-minus" := minus]> (<["POSCAR-plus" := plus]> (files s)))
          (log s).

(** A text without any of the characters at which [splitlines] breaks. *)
Definition no_linebreak (s : string) : Prop :=
  forallb (fun c => negb (is_linebreak c)) (list_ascii_of_string s) = true.

(** What [prepare_gruneisen_FC3] takes from jarvis.core, which reads the
    POSCAR from the disk: the k-points
    [Kpoints3D().kpath(Atoms.from_poscar(poscar), line_density)._kpoints],
    or the exception on the way to them. *)
Record kpath_lib (F : Type) : Type := mkKpathLib {
  kpath_kpoints : gmap string string -> string -> Z -> result (list (list F))
}.
Arguments kpath_kpoints {F} _ _ _ _.

Section GruneisenFC3.

Context {F : Type} (T : float_text F) (K : kpath_lib F).

(** [k[i]] on a k-point. *)
Definition component (k : list F) (i : nat) : result F :=
  match k !! i with
  | Some x => Returned x
  | None => Raised IndexError
  end.

(** The loop over the k-points (lines 148-157): each one adds its first
    three components, a space between them and two spaces behind. *)
Fixpoint band_lines (all_lines : string) (all_kp : list (list F))
    : result string :=
  match all_kp with
  | [] => Returned all_lines
  | k :: rest =>
      let? k0 := component k 0 in
      let? k1 := component k 1 in
      let? k2 := component k 2 in
      band_lines
        (all_lines ++ str_float T k0 ++ " " ++ str_float T k1 ++ " "
         ++ str_float T k2 ++ "  ")
        rest
  end.

(** [prepare_gruneisen_FC3(phonopy_obj, poscar, band_calc, line_density,
    mesh, nac, run)] (lines 104-167). *)
Definition prepare_gruneisen_FC3 (obj : phonopy_obj) (poscar : string)
    (band_calc : bool) (line_density : Z) (mesh : list Z) (nac run : bool)
    : py unit :=
  let dim := scell_dim obj in
  let phono3py_cmd :=
    "phono3py --fc3 --fc2 --dim=" ++ quote
    ++ join_ints dim
    ++ quote ++ " -v -c "
    ++ poscar
    ++ " --gruneisen" in
  let phono3py_cmd :=
    if nac then phono3py_cmd ++ " --nac" else phono3py_cmd in
  do phono3py_cmd <-
    (if band_calc then
       do all_kp <-
         (fun s => (kpath_kpoints K (files s) poscar line_density, s));
       do all_lines <- lift (band_lines "" all_kp);
       let phono3py_cmd :=
         phono3py_cmd ++ " --band=" ++ quote ++ all_lines ++ quote in
       print phono3py_cmd ;;
       ret phono3py_cmd
     else
       let phono3py_cmd :=
         (phono3py_cmd ++ " --mesh=" ++ quote ++ join_ints mesh) ++ quote in
       print phono3py_cmd ;;
       ret phono3py_cmd);
  if run then emit (Shell phono3py_cmd) else ret tt.

End GruneisenFC3.

(** What a call that prints [cmd] leaves in the log, with [run] or
    without. *)
Definition printed_and_run (cmd : string) (run : bool) : list event :=
  Printed cmd :: (if run then [Shell cmd] else []).

End phono3py_inputs.

(** * jarvis/io/phono3py/outputs.py *)

Module phono3py_outputs.

(** Arrays of any rank, as h5py and numpy hand them out. *)
Inductive ndarray (F : Type) : Type :=
  | Scalar (x : F)
  | Array (items : list (ndarray F)).
Arguments Scalar {F} x.
Arguments Array {F} items.

Section Outputs.

Context {F : Type} `{Arith F}.

(** [a[i]] for a non-negative index [i]. *)
Definition item (a : ndarray F) (i : nat) : result (ndarray F) :=
  match a with
  | Scalar _ => Raised IndexError
  | Array items =>
      match items !! i with
      | Some x => Returned x
      | None => Raised IndexError
      end
  end.

(** [d[key]] on a dict. *)
Definition dict_get (d : gmap string (ndarray F)) (key : string)
    : result (ndarray F) :=
  match d !! key with
  | Some v => Returned v
  | None => Raised (KeyError key)
  end.

(** [x in l] and [l.index(x)], both by [==]. *)
Definition py_in (x : F) (l : list F) : bool := existsb (feqb x) l.

Fixpoint py_index (x : F) (l : list F) : result nat :=
  match l with
  | [] => Raised (ValueError ["x not in list"])
  | y :: rest =>
      if feqb x y then Returned 0
      else let? i := py_index x rest in Returned (S i)
  end.

(** The attributes of a [Kappa] object that [kappa] reads. *)
Record Kappa : Type := mkKappa {
  dict : gmap string (ndarray F);
  temperatures : list F;
  kappa_format : string
}.

(** The list of the scalars of a one-dimensional array, [list(a)]. *)
Definition to_list (a : ndarray F) : result (list F) :=
  match a with
  | Scalar _ => Raised TypeError
  | Array items =>
      rmap (fun x => match x with
                     | Scalar v => Returned v
                     | Array _ => Raised TypeError
                     end) items
  end.

(** [Kappa.__init__] (lines 83-93), given the content [f] of the hdf5
    file; the attributes that [kappa] never reads are left out, the
    lookup of [f["qpoint"]] is kept. *)
Definition Kappa_init (f : gmap string (ndarray F))
    (temperatures : option (list F)) (kappa_format : string)
    : result Kappa :=
  let? temps :=
    match temperatures with
    | Some (t :: ts) => Returned (t :: ts)
    | _ => let? a := dict_get f "temperature" in to_list a
    end in
  let? _ := dict_get f "qpoint" in
  Returned (mkKappa f temps kappa_format).

(** [Kappa.kappa(T)] (lines 98-105); [None] is Python's [None], returned
    when no [return] statement is reached. *)
Definition kappa (self : Kappa) (T : F) : result (option (ndarray F)) :=
  if negb (py_in T (temperatures self)) then
    Raised (Exception_ "Kappa not evaluated at this temperature.")
  else
    let? T_indx := py_index T (temperatures self) in
    if kappa_format self =? "tensor" then
      let? k := dict_get (dict self) "kappa" in
      let? row := item k T_indx in
      Returned (Some row)
    else if kappa_format self =? "scalar_xx" then
      let? k := dict_get (dict self) "kappa" in
      let? row := item k T_indx in
      let? x := item row 0 in
      Returned (Some x)
    else Returned None.

(** *** JDOS.select_jdos *)

(** [a[i]] on a one-dimensional array for a signed index: a negative index
    counts from the end. *)
Definition np_getitem (a : list F) (i : Z) : result F :=
  let n := Z.of_nat (length a) in
  let j := if (i <? 0)%Z then (i + n)%Z else i in
  if ((0 <=? j)%Z && (j <? n)%Z)%bool then
    match a !! Z.to_nat j with
    | Some x => Returned x
    | None => Raised IndexError
    end
  else Raised IndexError.

(** [data[:, j]] on a two-dimensional array given by its rows. *)
Definition column (j : nat) (data : list (list F)) : result (list F) :=
  match data with
  | [] => Raised IndexError
  | _ => rmap (fun row => match row !! j with
                          | Some x => Returned x
                          | None => Raised IndexError
                          end) data
  end.

(** numpy's check of the bins of [np.digitize]: 1 for non-decreasing bins,
    -1 for non-increasing ones, 0 otherwise. *)
Fixpoint non_decreasing (last : F) (a : list F) : bool :=
  match a with
  | [] => true
  | next :: rest => negb (fltb next last) && non_decreasing next rest
  end.

Fixpoint non_increasing (last : F) (a : list F) : bool :=
  match a with
  | [] => true
  | next :: rest => negb (fltb last next) && non_increasing next rest
  end.

Fixpoint skip_equal (last : F) (a : list F) : list F :=
  match a with
  | [] => []
  | next :: rest => if feqb next last then skip_equal last rest else a
  end.

Definition monotonicity (bins : list F) : Z :=
  match bins with
  | [] => 1
  | last :: rest =>
      match skip_equal last rest with
      | [] => 1
      | next :: rest' =>
          if fltb last next
          then (if non_decreasing next rest' then 1 else 0)
          else (if non_increasing next rest' then -1 else 0)
      end
  end%Z.

(** [np.searchsorted(a, x, side="right")] on a non-decreasing [a]: the
    index [i] with [a[i-1] <= x < a[i]]. *)
Fixpoint searchsorted_right (a : list F) (x : F) : nat :=
  match a with
  | [] => 0
  | y :: rest => if fltb x y then 0 else S (searchsorted_right rest x)
  end.

(** [np.digitize(x, bins)] for one value [x]. *)
Definition digitize (x : F) (bins : list F) : result nat :=
  let mono := monotonicity bins in
  if (mono =? 0)%Z then
    Raised (ValueError
              ["bins must be monotonically increasing or decreasing"])
  else if (mono =? -1)%Z then
    Returned (length bins - searchsorted_right (rev bins) x)
  else Returned (searchsorted_right bins x).

(** [(N2[i] + N2[i - 1]) / 2] *)
Definition bin_average (N2 : list F) (i : nat) : result F :=
  let? hi := np_getitem N2 (Z.of_nat i) in
  let? lo := np_getitem N2 (Z.of_nat i - 1) in
  Returned (fdiv (fadd hi lo) f2).

(** The body of the loop of [select_jdos] on the table [data] read for one
    grid point and the branch frequencies of that point (lines 182-190). *)
Definition select_row (data : list (list F)) (branches : list F)
    : result (list F) :=
  let? freq := column 0 data in
  let? c1 := column 1 data in
  let? c2 := column 2 data in
  let N2 := zip_with fadd c1 c2 in
  let? indices := rmap (fun x => digitize x freq) branches in
  rmap (bin_average N2) indices.

(** The attributes of a [JDOS] object that [select_jdos] reads, with the
    grid point indices [np.unique(get_gridpts(self))] that spglib yields
    for the mesh, and numpy's reading of a table of numbers from a text,
    [np.genfromtxt]. *)
Record JDOS : Type := mkJDOS {
  mesh : list Z;
  temperature : option Z;
  directory : string;
  frequencies : list (list F);          (* mesh_dict["frequencies"] *)
  gridpt_uids : list Z;
  genfromtxt : string -> result (list (list F))
}.

(** The name of the file read for grid point [gp] (lines 161-180). *)
Definition jdos_file (self : JDOS) (gp : Z) : string :=
  match temperature self with
  | Some t =>
      directory self ++ "jdos-m" ++ py_join "" (map str_int (mesh self))
      ++ "-g" ++ str_int gp ++ "-t" ++ str_int t ++ ".dat"
  | None =>
      directory self ++ "jdos-m" ++ py_join "" (map str_int (mesh self))
      ++ "-g" ++ str_int gp ++ ".dat"
  end.

(** One iteration of the loop over the grid points: row [g] of [jdos_ir]
    is overwritten. *)
Definition select_body (self : JDOS) (width : nat)
    (jdos_ir : list (list F)) (ggp : nat * Z) : py (list (list F)) :=
  do text <- read_file (jdos_file self (snd ggp));
  do data <- lift (genfromtxt self text);
  do branches <- lift (match frequencies self !! fst ggp with
                       | Some b => Returned b
                       | None => Raised IndexError
                       end);
  do row <- lift (select_row data branches);
  if Nat.eqb (length row) width
  then ret (<[fst ggp := row]> jdos_ir)
  else raise (ValueError ["could not broadcast input array"]).

(** [JDOS.select_jdos()] (lines 130-191). *)
Definition select_jdos (self : JDOS) : py (list (list F)) :=
  do first <- lift (match frequencies self !! 0 with
                    | Some b => Returned b
                    | None => Raised IndexError
                    end);
  let width := length first in
  let jdos_ir :=
    replicate (length (gridpt_uids self)) (replicate width f0) in
  for_each (select_body self width)
           (imap (fun g gp => (g, gp)) (gridpt_uids self)) jdos_ir.

End Outputs.

End phono3py_outputs.

(** * Concrete environments for the examples *)

Module examples.

(** A network that answers every request with an archive of no member. *)
Definition L_empty : figshare.libs unit :=
  figshare.mkLibs unit
    (fun _ => Returned "bytes")
    (fun _ => Returned [])
    (fun _ => Returned tt)
    "/site/jarvis/db".

(** A network that answers every request, an archive with one image, and
    JSON documents that carry no information. *)
Definition L0 : figshare.libs unit :=
  figshare.mkLibs unit
    (fun _ => Returned "bytes")
    (fun _ => Returned [("JVASP-1_pos.jpg", "")])
    (fun _ => Returned tt)
    "/site/jarvis/db".

(** An empty disk and an empty log. *)
Definition s0 : state := mkState ∅ [].

(** A network whose archive holds the cached file of "dft_3d", with JSON
    documents represented by their text. *)
Definition L1 : figshare.libs string :=
  figshare.mkLibs string
    (fun _ => Returned "zip bytes")
    (fun _ => Returned [("jdft_3d-4-26-2020.json", "[]")])
    (fun text => Returned text)
    "/site/jarvis/db".

(** A disk that already holds the cached file of "dft_3d". *)
Definition s_cached : state :=
  mkState {[ "/site/jarvis/db/jdft_3d-4-26-2020.json" := "[1]" ]} [].

(** A raw-file index with one archive in each list, and library calls
    that yield objects without content. *)
Definition fls0 : figshare.raw_index :=
  figshare.mkIndex
    [figshare.Dict "JVASP-1.zip" "https://ndownloader.figshare.com/files/1"]
    [figshare.NotADict;
     figshare.Dict "JVASP-2.zip" "https://ndownloader.figshare.com/files/2"].

(** A Hamiltonian with two orbitals and two lattice vectors, over the real
    numbers, and a wavevector. *)
Definition w0 : figshare.WannierHam R :=
  figshare.mkWannierHam R 2
    [[0; 0; 0]; [1; 0; 0]]%R
    [[(1, 0); (0, 1); (2, 0); (3, 0)];
     [(0, 0); (1, 1); (0, 0); (0, 0)]]%R.

Definition k0 : list R := [1 / 2; 0; 0]%R.

(** One orbital, one lattice vector at the origin. *)
Definition w1 : figshare.WannierHam R :=
  figshare.mkWannierHam R 1 [[0; 0; 0]]%R [[(1, 2)]]%R.

(** A Phonopy object with a 2x2x2 supercell and four irreducible grid
    points, and the command of a call with two temperatures. *)
Definition obj0 : phono3py_inputs.phonopy_obj :=
  phono3py_inputs.mkPhonopy [2; 2; 2]%Z (fun _ => [0; 1; 2; 5]%Z).

Definition cmd0 : string :=
  phono3py_inputs.prepare_jdos_cmd obj0 "POSCAR-unitcell" [11; 11; 11]%Z
    (Some [300; 400]%Z) 201%Z None.

(** Conversions between text and rationals for the two numbers of the
    example below. *)
Definition T0 : phono3py_inputs.float_text Q :=
  phono3py_inputs.mkFloatText Q
    (fun s => if (s =? "5.43")%string then Returned (543 # 100)
              else Raised (ValueError ["could not convert string to float"]))
    (fun x => if Qeq_bool x (1086 # 100) then "10.86"
              else if Qeq_bool x (543 # 200) then "2.715"
              else "?").

Definition poscar0 : string :=
  "Si2" ++ nl ++ "5.43" ++ nl ++ "0.0 0.5 0.5" ++ nl ++ "0.5 0.0 0.5" ++ nl.

Definition s_poscar : state := mkState {[ "POSCAR-unitcell" := poscar0 ]} [].

(** The content of a kappa file computed at 300 K only, and the object
    that [Kappa(filename, temperatures=[300, 400])] makes of it. *)
Definition kappa_file : gmap string (phono3py_outputs.ndarray Q) :=
  let sc := @phono3py_outputs.Scalar Q in
  let ar := @phono3py_outputs.Array Q in
  {[ "temperature" := ar [sc 300];
     "qpoint" := ar [ar [sc 0; sc 0; sc 0]];
     "kappa" := ar [ar [sc 130; sc 130; sc 130; sc 0; sc 0; sc 0]] ]}%Q.

Definition kappa_obj : phono3py_outputs.Kappa :=
  phono3py_outputs.mkKappa kappa_file [300; 400]%Q "scalar_xx".

(** A table of a jdos file: frequency and the two JDOS columns. *)
Definition jdos_table : list (list Q) :=
  [[1; 10; 1]; [2; 20; 2]; [3; 30; 3]]%Q.

(** A JDOS object with one irreducible grid point and two branches, one
    below the first frequency of the table and one inside it, and the disk
    that holds its jdos file. *)
Definition jdos_obj : phono3py_outputs.JDOS :=
  phono3py_outputs.mkJDOS [11; 11; 11]%Z None "unweighted_jdos/"
    [[1 # 2; 5 # 2]]%Q [0%Z]
    (fun text => if (text =? "table")%string then Returned jdos_table
                 else Raised (ValueError ["not a table"])).

Definition s_jdos : state :=
  mkState {[ "unweighted_jdos/jdos-m111111-g0.dat" := "table" ]} [].

(** A network that answers with a page that is no zip archive. *)
Definition L_bad : figshare.libs unit :=
  figshare.mkLibs unit
    (fun _ => Returned "<html>")
    (fun _ => Raised (External "zipfile.BadZipFile"))
    (fun _ => Returned tt)
    "/site/jarvis/db".

(** A dataset of two materials, and a decoder that yields it. *)
Definition jid_docs : list figshare.jvalue :=
  [figshare.JObj [("jid", figshare.JStr "JVASP-1");
                  ("formula", figshare.JStr "Si")];
   figshare.JObj [("jid", figshare.JStr "JVASP-2");
                  ("formula", figshare.JStr "Ge")];
   figshare.JObj [("formula", figshare.JStr "C")]].

Definition L_jid : figshare.libs figshare.jvalue :=
  figshare.mkLibs figshare.jvalue
    (fun _ => Returned "zip bytes")
    (fun _ => Returned [("jdft_3d-4-26-2020.json", "[...]")])
    (fun _ => Returned (figshare.JArr jid_docs))
    "/site/jarvis/db".

(** The Hamiltonian [w0] with its second row of [HR] missing, and with a
    third row added. *)
Definition w_short : figshare.WannierHam R :=
  figshare.with_HR w0 [[(1, 0); (0, 1); (2, 0); (3, 0)]]%R.

Definition w_long : figshare.WannierHam R :=
  figshare.with_HR w0
    (figshare.HR w0 ++ [[(5, 5); (5, 5); (5, 5); (5, 5)]%R])%list.

(** A k-path of two points, one of which lacks its third component, a
    k-path library that yields it for every POSCAR, and one that finds no
    POSCAR. *)
Definition K_short : phono3py_inputs.kpath_lib Q :=
  phono3py_inputs.mkKpathLib Q
    (fun _ _ _ => Returned [[0; 0; 0]; [1 # 2; 0]]%Q).

Definition K_missing : phono3py_inputs.kpath_lib Q :=
  phono3py_inputs.mkKpathLib Q
    (fun _ poscar _ => Raised (FileNotFoundError poscar)).

Definition K_gamma_x : phono3py_inputs.kpath_lib Q :=
  phono3py_inputs.mkKpathLib Q
    (fun _ _ _ => Returned [[0; 0; 0]; [543 # 200; 0; 0]]%Q).

(** A POSCAR that ends in a newline, as a list of lines. *)
Definition poscar_lines : list string :=
  ["Si2"; "5.43"; "0.0 0.5 0.5"; "0.5 0.0 0.5"].

(** A jdos table whose frequencies decrease, and a JDOS object with one
    grid point and one branch, at 5/2, that reads it. *)
Definition jdos_table_desc : list (list Q) :=
  [[3; 30; 3]; [2; 20; 2]; [1; 10; 1]]%Q.

Definition jdos_obj_desc : phono3py_outputs.JDOS :=
  phono3py_outputs.mkJDOS [11; 11; 11]%Z None "unweighted_jdos/"
    [[5 # 2]]%Q [0%Z]
    (fun text => if (text =? "table")%string then Returned jdos_table_desc
                 else Raised (ValueError ["not a table"])).

(** An index in which two entries are the archive of "JVASP-1". *)
Definition fls2 : figshare.raw_index :=
  figshare.mkIndex
    [figshare.Dict "JVASP-1.zip" "https://ndownloader.figshare.com/files/1";
     figshare.Dict "JVASP-7.zip" "https://ndownloader.figshare.com/files/7";
     figshare.Dict "JVASP-1.zip.old"
                   "https://ndownloader.figshare.com/files/1b"]
    [].

Definition X0 : figshare.wann_libs unit unit unit :=
  figshare.mkWannLibs unit unit unit
    (fun _ _ => Returned (tt, tt, tt))
    (fun _ => Returned (tt, tt))
    (Returned tt).

End examples.

(** * Proof automation for runs in [py] *)

Arguments path_join : simpl never.
Arguments extract_into : simpl never.

Ltac py_unfold :=
  unfold bind, ret, raise, lift, emit, print, discard, isfile, read_file,
    write_file, remove_file, extractall, read_local.

(** Run the monadic code as far as the known facts allow. *)
Ltac py_run := repeat first [progress py_unfold | progress cbn].

(** * Properties of jarvis/db/figshare.py *)

Module figshare_proofs.

Import figshare.

Section Datasets.

Context {json : Type} (L : libs json).

Lemma catalog_lookup_elem (name u t : string) :
  catalog !! name = Some (u, t) -> (name, (u, t)) ∈ catalog_entries.
Proof. apply elem_of_list_to_map_2. Qed.

(** The names with an entry are the names of the catalog but "stm_2d". *)
Lemma catalog_entries_names :
  catalog_entries.*1 = filter (fun n => n <> "stm_2d") catalog_names.
Proof. reflexivity. Qed.

(** "dft_3d" as the claim spells it out, in every environment. *)
Lemma datasets_dft_3d (s : state) :
  datasets L "dft_3d" s =
    (Returned ("https://ndownloader.figshare.com/files/22471022",
               "jdft_3d-4-26-2020.json"),
     logs s [Printed "Obtaining 3D dataset ..."]).
Proof. reflexivity. Qed.

(** Every branch of a name with an entry assigns both variables and prints
    one message. *)
Lemma datasets_known (name u t : string) (s : state) :
  catalog !! name = Some (u, t) ->
  exists msg, datasets L name s = (Returned (u, t), logs s [Printed msg]).
Proof.
  intros Hc. apply catalog_lookup_elem in Hc. unfold catalog_entries in Hc.
  repeat (apply elem_of_cons in Hc as [Hc | Hc];
          [injection Hc as -> -> ->; eexists; reflexivity | ]).
  by apply elem_of_nil in Hc.
Qed.

(** C4 (amended): for every name of the catalog other than "stm_2d", the
    catalog has an entry and [datasets] returns the URL and the cached
    file name of that entry, having printed one message and done nothing
    else; for "dft_3d" these are the two texts of the claim. *)
Theorem datasets_returns_catalog_entry (name : string) (s : state) :
  name ∈ catalog_names -> name <> "stm_2d" ->
  (exists u t msg,
     catalog !! name = Some (u, t) /\
     datasets L name s = (Returned (u, t), logs s [Printed msg])) /\
  catalog !! "dft_3d" =
    Some ("https://ndownloader.figshare.com/files/22471022",
          "jdft_3d-4-26-2020.json").
Proof.
  intros Hin Hstm. split; [ | reflexivity].
  unfold catalog_names in Hin.
  repeat (apply elem_of_cons in Hin as [-> | Hin];
          [first [ congruence
                 | do 3 eexists; split; [reflexivity | reflexivity] ] | ]).
  by apply elem_of_nil in Hin.
Qed.

(** The branch of "stm_2d" never hands out a URL and a file name: it ends
    in an exception in every environment. *)
Lemma datasets_stm_2d_raises (s : state) :
  exists e, fst (datasets L "stm_2d" s) = Raised e.
Proof.
  unfold datasets, datasets_chain, stm_2d_branch, http_get. cbn.
  py_run.
  destruct (requests_get L "https://ndownloader.figshare.com/files/21884952")
    as [r_jpg | e]; [ | by eexists].
  py_run. destruct (zip_members L r_jpg) as [z | e]; [ | by eexists].
  py_run.
  destruct (requests_get L "https://ndownloader.figshare.com/files/21893379")
    as [r_json | e]; [ | by eexists].
  py_run. destruct (json_loads L r_json) as [latts | e]; [ | by eexists].
  py_run. destruct z as [| i z]; py_run; by eexists.
Qed.

(** A name that no branch of the chain tests reaches the [else]. *)
Lemma datasets_chain_else (name : string) (s : state) :
  name ∉ catalog_names ->
  datasets_chain L name s =
    (Returned unassigned,
     logs s [Discard (ValueError ["Dataset doesnt exist"; name])]).
Proof.
  intros Hc. unfold datasets_chain.
  repeat match goal with
  | |- context [String.eqb name ?k] =>
      destruct (String.eqb_spec name k) as [-> | _];
      [ exfalso; apply Hc; unfold catalog_names; by repeat constructor | ]
  end.
  reflexivity.
Qed.

(** C1: for every name that is not in the catalog, [datasets] builds a
    ValueError object and drops it, so that no ValueError is raised, and
    arrives at the [return] with [url] and [js_tag] never assigned (where
    reading [url] raises UnboundLocalError). *)
Theorem datasets_unknown_name (name : string) (s : state) :
  name ∉ catalog_names ->
  datasets_chain L name s =
    (Returned (mkLocals None None),
     logs s [Discard (ValueError ["Dataset doesnt exist"; name])]) /\
  datasets L name s =
    (Raised (UnboundLocalError "url"),
     logs s [Discard (ValueError ["Dataset doesnt exist"; name])]).
Proof.
  intros Hc. pose proof (datasets_chain_else name s Hc) as E.
  split; [exact E | ].
  unfold datasets, bind. rewrite E. reflexivity.
Qed.

End Datasets.

Lemma datasets_returns_catalog_entry_witness :
  "dft_3d" ∈ catalog_names /\ "dft_3d" <> "stm_2d" /\
  exists u t msg,
    catalog !! "dft_3d" = Some (u, t) /\
    datasets examples.L0 "dft_3d" examples.s0 =
      (Returned (u, t), logs examples.s0 [Printed msg]).
Proof.
  assert ("dft_3d" ∈ catalog_names) as Hin
    by (unfold catalog_names; repeat constructor).
  assert ("dft_3d" <> "stm_2d") as Hne by discriminate.
  split; [exact Hin | ]. split; [exact Hne | ].
  exact (proj1 (datasets_returns_catalog_entry examples.L0 "dft_3d"
                  examples.s0 Hin Hne)).
Defined.

(** C4 as stated fails at "stm_2d": it is a name of the catalog, and its
    branch returns no URL and file name.  With a member in the archive it
    stops at the undefined name [mpimg]; with none it reaches the [return]
    with [url] unassigned. *)
Lemma datasets_stm_2d_returns_no_entry :
  "stm_2d" ∈ catalog_names /\
  datasets examples.L0 "stm_2d" examples.s0 =
    (Raised (NameError "mpimg"),
     mkState ∅ [HttpGet "https://ndownloader.figshare.com/files/21884952";
                HttpGet "https://ndownloader.figshare.com/files/21893379"]) /\
  datasets examples.L_empty "stm_2d" examples.s0 =
    (Raised (UnboundLocalError "url"),
     mkState ∅ [HttpGet "https://ndownloader.figshare.com/files/21884952";
                HttpGet "https://ndownloader.figshare.com/files/21893379";
                Printed "Obtaining 2D STM dataset ..."]).
Proof.
  split; [unfold catalog_names; repeat constructor | ].
  split; reflexivity.
Qed.

Lemma datasets_unknown_name_witness :
  ("dft_4d" ∉ catalog_names) /\
  datasets examples.L0 "dft_4d" examples.s0 =
    (Raised (UnboundLocalError "url"),
     logs examples.s0
          [Discard (ValueError ["Dataset doesnt exist"; "dft_4d"])]).
Proof.
  assert ("dft_4d" ∉ catalog_names) as Hout.
  { unfold catalog_names. intros Hin.
    repeat (apply elem_of_cons in Hin as [Hin | Hin]; [discriminate | ]).
    by apply elem_of_nil in Hin. }
  split; [exact Hout | ].
  exact (proj2 (datasets_unknown_name examples.L0 "dft_4d" examples.s0 Hout)).
Defined.

(** ** The fetcher [data] *)

Section Data.

Context {json : Type} (L : libs json).

Lemma extract_into_is_Some (dir : string) (members : list (string * string))
    (fs : gmap string string) (p : string) :
  is_Some (fs !! p) -> is_Some (extract_into dir members fs !! p).
Proof.
  unfold extract_into. revert fs.
  induction members as [| m members IH]; intros fs Hp; [exact Hp | ].
  cbn. apply IH.
  destruct (decide (path_join dir m.1 = p)) as [-> | Hne].
  - rewrite lookup_insert_eq. eauto.
  - by rewrite lookup_insert_ne.
Qed.

(** With the cached file on disk, [data] decodes it and touches neither
    the network nor the disk. *)
Lemma data_cached (name u t text : string) (s : state) :
  catalog !! name = Some (u, t) ->
  files s !! path_join (module_dir L) t = Some text ->
  exists msg,
    data L name s = (json_loads L text, logs s [Printed msg]).
Proof.
  intros Hc Hf. destruct (datasets_known L name u t s Hc) as [msg E].
  exists msg. unfold data, bind at 1. rewrite E. cbn [fst snd].
  unfold loadjson, logs. py_run.
  rewrite Hf. rewrite bool_decide_eq_true_2 by eauto. py_run.
  rewrite Hf. destruct (json_loads L text); reflexivity.
Qed.

(** Without it, [data] downloads the archive to [tmp.zip], extracts every
    member into the module directory, removes [tmp.zip], and decodes the
    file it then finds under the cached name. *)
Lemma data_fetched (name u t content : string)
    (members : list (string * string)) (s : state) :
  catalog !! name = Some (u, t) ->
  files s !! path_join (module_dir L) t = None ->
  requests_get L u = Returned content ->
  zip_members L content = Returned members ->
  let zfile := path_join (module_dir L) "tmp.zip" in
  let fs := delete zfile (extract_into (module_dir L) members
                                       (<[zfile := content]> (files s))) in
  exists msg,
    data L name s =
      (match fs !! path_join (module_dir L) t with
       | Some text => json_loads L text
       | None => Raised (FileNotFoundError (path_join (module_dir L) t))
       end,
       mkState fs (log s ++ [Printed msg; HttpGet u])).
Proof.
  intros Hc Hf Hget Hzip zfile fs.
  destruct (datasets_known L name u t s Hc) as [msg E].
  exists msg. unfold data, bind at 1. rewrite E. cbn [fst snd].
  unfold loadjson, http_get, logs. py_run.
  rewrite Hf. rewrite bool_decide_eq_false_2 by (intros [? ?]; discriminate).
  py_run. rewrite Hget. py_run. rewrite lookup_insert_eq. rewrite Hzip.
  py_run. fold zfile.
  destruct (extract_into_is_Some (module_dir L) members
              (<[zfile := content]> (files s)) zfile) as [z Hz].
  { rewrite lookup_insert_eq. eauto. }
  rewrite Hz. py_run. fold fs. rewrite <- app_assoc. cbn.
  destruct (fs !! path_join (module_dir L) t) as [text | ]; [ | reflexivity].
  destruct (json_loads L text); reflexivity.
Qed.

(** C7: for a catalogued dataset, [data] with the cached file on disk
    makes no HTTP request, leaves the disk as it is and returns the
    decoding of that file; only with the file absent does it request the
    archive, extract it into the cache directory and remove the temporary
    zip file, all before it decodes. *)
Theorem data_uses_cache_before_fetching (name u t : string) (s : state) :
  catalog !! name = Some (u, t) ->
  let path := path_join (module_dir L) t in
  let zfile := path_join (module_dir L) "tmp.zip" in
  (forall text, files s !! path = Some text ->
     exists msg,
       data L name s = (json_loads L text, logs s [Printed msg]) /\
       http_free [Printed msg]) /\
  (files s !! path = None ->
   forall content members,
     requests_get L u = Returned content ->
     zip_members L content = Returned members ->
     let fs := delete zfile (extract_into (module_dir L) members
                                          (<[zfile := content]> (files s))) in
     exists msg,
       data L name s =
         (match fs !! path with
          | Some text => json_loads L text
          | None => Raised (FileNotFoundError path)
          end,
          mkState fs (log s ++ [Printed msg; HttpGet u])) /\
       fs !! zfile = None).
Proof.
  intros Hc path zfile. split.
  - intros text Hf. destruct (data_cached name u t text s Hc Hf) as [msg E].
    exists msg. split; [exact E | ].
    intros v Hv. apply elem_of_cons in Hv as [Hv | Hv]; [discriminate | ].
    by apply elem_of_nil in Hv.
  - intros Hf content members Hget Hzip fs.
    destruct (data_fetched name u t content members s Hc Hf Hget Hzip)
      as [msg E].
    exists msg. split; [exact E | ]. apply lookup_delete_eq.
Qed.

End Data.

Lemma data_uses_cache_before_fetching_witness :
  catalog !! "dft_3d" =
    Some ("https://ndownloader.figshare.com/files/22471022",
          "jdft_3d-4-26-2020.json") /\
  exists msg,
    data examples.L1 "dft_3d" examples.s_cached =
      (Returned "[1]", logs examples.s_cached [Printed msg]) /\
    http_free [Printed msg].
Proof.
  split; [reflexivity | ].
  destruct (data_uses_cache_before_fetching examples.L1 "dft_3d" _ _
              examples.s_cached eq_refl) as [Hcached _].
  apply (Hcached "[1]"). reflexivity.
Defined.

(** The other case on a concrete run: the archive is requested, its member
    lands in the cache directory, [tmp.zip] is gone, and the member is what
    gets decoded. *)
Example data_dft_3d_fetch :
  data examples.L1 "dft_3d" examples.s0 =
    (Returned "[]",
     mkState {[ "/site/jarvis/db/jdft_3d-4-26-2020.json" := "[]" ]}
             [Printed "Obtaining 3D dataset ...";
              HttpGet "https://ndownloader.figshare.com/files/22471022"]).
Proof. vm_compute. reflexivity. Qed.

(** ** The specialized record fetchers *)

Section Fetchers.

Context {json : Type} (L : libs json).
Context {wannier_ham efermi atoms : Type}.
Context (X : wann_libs wannier_ham efermi atoms).

Lemma electron_loop_no_match (jid : string) (l : list index_entry)
    (st : electron_locals) (s : state) :
  all_dicts l -> no_match jid l ->
  for_each (electron_body L X jid) l st s = (Returned st, s).
Proof.
  induction l as [| i l IH]; intros Hd Hn; [reflexivity | ].
  apply Forall_cons in Hd as [Hi Hd].
  destruct i as [name download_url | ]; [ | congruence].
  cbn. unfold bind at 1. cbn.
  destruct (String.eqb_spec (before_first ".zip" name) jid) as [Heq | _].
  - exfalso. apply (Hn name download_url); [apply elem_of_cons; by left | exact Heq].
  - cbn. apply IH; [exact Hd | ].
    intros n u Hin. apply (Hn n u). apply elem_of_cons. by right.
Qed.

Lemma phonon_loop_no_match (jid : string) (l : list index_entry)
    (s : state) :
  no_match jid l -> phonon_loop L X jid l s = (Returned None, s).
Proof.
  induction l as [| i l IH]; intros Hn; [reflexivity | ].
  assert (no_match jid l) as Hl.
  { intros n u Hin. apply (Hn n u). apply elem_of_cons. by right. }
  destruct i as [name download_url | ]; cbn; [ | by apply IH].
  destruct (String.eqb_spec (before_first ".zip" name) jid) as [Heq | _].
  - exfalso. apply (Hn name download_url); [apply elem_of_cons; by left | exact Heq].
  - by apply IH.
Qed.

(** C6: with no matching entry in the index, [get_wann_phonon] skips every
    entry and returns None, whereas [get_wann_electron], which initialises
    [w] and [ef] but not [atoms], skips every entry and then raises at its
    [return]. *)
Theorem fetchers_without_match (fls : raw_index) (jid : string) (s : state) :
  import_phonopy_outputs X = Returned tt ->
  no_match jid (FD_ELAST fls) ->
  all_dicts (WANN fls) -> no_match jid (WANN fls) ->
  get_wann_phonon L X fls jid s = (Returned None, s) /\
  get_wann_electron L X fls jid s = (Raised (UnboundLocalError "atoms"), s).
Proof.
  intros Himp Hp Hd He. split.
  - unfold get_wann_phonon, bind, lift. rewrite Himp.
    by apply phonon_loop_no_match.
  - unfold get_wann_electron, bind at 1.
    rewrite electron_loop_no_match by assumption. reflexivity.
Qed.

End Fetchers.

Lemma fetchers_without_match_witness :
  get_wann_phonon examples.L0 examples.X0 examples.fls0 "JVASP-816"
                  examples.s0 = (Returned None, examples.s0) /\
  get_wann_electron examples.L0 examples.X0 examples.fls0 "JVASP-816"
                    examples.s0 =
    (Raised (UnboundLocalError "atoms"), examples.s0).
Proof.
  apply (fetchers_without_match examples.L0 examples.X0 examples.fls0
           "JVASP-816" examples.s0).
  - reflexivity.
  - intros n u Hin. cbn in Hin.
    repeat (apply elem_of_cons in Hin as [Hin | Hin];
            [try discriminate; injection Hin as -> ->; discriminate | ]).
    by apply elem_of_nil in Hin.
  - repeat constructor; discriminate.
  - intros n u Hin. cbn in Hin.
    repeat (apply elem_of_cons in Hin as [Hin | Hin];
            [try discriminate; injection Hin as -> ->; discriminate | ]).
    by apply elem_of_nil in Hin.
Defined.

(** With a match the same call returns, so the exception above is the
    missing initialisation and nothing else. *)
Example get_wann_electron_match :
  get_wann_electron examples.L0 examples.X0 examples.fls0 "JVASP-1"
                    examples.s0 =
    (Returned (Obj tt, Obj tt, tt),
     mkState ∅ [HttpGet "https://ndownloader.figshare.com/files/1"]).
Proof. reflexivity. Qed.

End figshare_proofs.

(** * Properties of the tight-binding evaluator *)

Module tight_binding_proofs.

Import figshare.

Section Matrices.

Context {F : Type} `{Arith F}.

Local Abbreviation complex := (complex F).

Lemma map_seq_ext {A} (f g : nat -> A) (a n : nat) :
  (forall i, a <= i < a + n -> f i = g i) ->
  map f (seq a n) = map g (seq a n).
Proof.
  intros E. apply map_ext_in. intros i Hi. apply in_seq in Hi. by apply E.
Qed.

Lemma nth_map_seq {A} (f : nat -> A) (n i : nat) (d : A) :
  i < n -> nth i (map f (seq 0 n)) d = f i.
Proof.
  intros Hi. rewrite (nth_indep _ d (f 0)) by (by rewrite length_map, length_seq).
  rewrite (map_nth f (seq 0 n) 0 i). by rewrite seq_nth.
Qed.

Lemma list_as_map_seq {A} (l : list A) (d : A) :
  l = map (fun i => nth i l d) (seq 0 (length l)).
Proof.
  apply (nth_ext _ _ d d).
  - by rewrite length_map, length_seq.
  - intros i Hi. by rewrite nth_map_seq.
Qed.

Lemma mat_of_ext (n : nat) (f g : nat -> nat -> complex) :
  (forall i j, i < n -> j < n -> f i j = g i j) -> mat_of n f = mat_of n g.
Proof.
  intros E. unfold mat_of. apply map_seq_ext. intros i Hi.
  apply map_seq_ext. intros j Hj. apply E; lia.
Qed.

Lemma square_as_mat_of (n : nat) (m : list (list complex)) :
  square n m -> m = mat_of n (entry m).
Proof.
  intros [Hlen Hrows]. unfold mat_of, entry.
  rewrite (list_as_map_seq m []) at 1. rewrite Hlen.
  apply map_seq_ext. intros i Hi.
  assert (length (nth i m []) = n) as Hrow.
  { rewrite List.Forall_forall in Hrows. apply Hrows, nth_In. lia. }
  rewrite (list_as_map_seq (nth i m []) C0) at 1. by rewrite Hrow.
Qed.

Lemma ncols_mat_of (n : nat) (f : nat -> nat -> complex) :
  ncols (mat_of n f) = n.
Proof.
  unfold mat_of. destruct n as [| n]; [reflexivity | ].
  cbn. by rewrite length_map, length_seq.
Qed.

Lemma transpose_mat_of (n : nat) (f : nat -> nat -> complex) :
  transpose (mat_of n f) = mat_of n (fun i j => f j i).
Proof.
  unfold transpose. rewrite ncols_mat_of. unfold mat_of at 2.
  apply map_seq_ext. intros j Hj. unfold mat_of. rewrite map_map.
  apply map_seq_ext. intros i Hi. apply nth_map_seq. lia.
Qed.

Lemma conj_mat_of (n : nat) (f : nat -> nat -> complex) :
  conj (mat_of n f) = mat_of n (fun i j => Cconj (f i j)).
Proof.
  unfold conj, mat_of. rewrite map_map. apply map_ext. intros i.
  by rewrite map_map.
Qed.

Lemma mat_div_mat_of (n : nat) (f : nat -> nat -> complex) (x : F) :
  mat_div (mat_of n f) x = mat_of n (fun i j => Cdiv_real (f i j) x).
Proof.
  unfold mat_div, mat_of. rewrite map_map. apply map_ext. intros i.
  by rewrite map_map.
Qed.

Lemma zip_with_map_same {A B C D} (h : B -> C -> D) (f : A -> B)
    (g : A -> C) (l : list A) :
  zip_with h (map f l) (map g l) = map (fun a => h (f a) (g a)) l.
Proof. induction l as [| a l IH]; [reflexivity | ]. cbn. by rewrite IH. Qed.

Lemma mat_add_mat_of (n : nat) (f g : nat -> nat -> complex) :
  mat_add (mat_of n f) (mat_of n g)
  = mat_of n (fun i j => Cadd (f i j) (g i j)).
Proof.
  unfold mat_add, mat_of. rewrite zip_with_map_same.
  apply map_ext. intros i. by rewrite zip_with_map_same.
Qed.

(** The entries of the symmetrized matrix. *)
Lemma symmetrize_mat_of (n : nat) (f : nat -> nat -> complex) :
  symmetrize (mat_of n f)
  = mat_of n (fun i j => Cdiv_real (Cadd (f i j) (Cconj (f j i))) f2).
Proof.
  unfold symmetrize.
  by rewrite transpose_mat_of, conj_mat_of, mat_add_mat_of, mat_div_mat_of.
Qed.

(** On one entry: the conjugate of the symmetrized [b], [a] pair is the
    symmetrized [a], [b] pair. *)
Lemma Cconj_symmetric_part (a b : complex) (x : F) :
  Cconj (Cdiv_real (Cadd b (Cconj a)) x) = Cdiv_real (Cadd a (Cconj b)) x.
Proof.
  destruct a as [a1 a2], b as [b1 b2]. unfold Cconj, Cdiv_real, Cadd. cbn.
  f_equal.
  - by rewrite fadd_comm.
  - by rewrite fopp_fdiv, fopp_fadd, fopp_fopp, fadd_comm.
Qed.

(** The symmetrization of a square matrix is Hermitian. *)
Lemma symmetrize_hermitian (n : nat) (m : list (list complex)) :
  square n m -> conj_transpose (symmetrize m) = symmetrize m.
Proof.
  intros Hsq. rewrite (square_as_mat_of n m Hsq).
  unfold conj_transpose.
  rewrite symmetrize_mat_of, transpose_mat_of, conj_mat_of.
  apply mat_of_ext. intros i j _ _. apply Cconj_symmetric_part.
Qed.

Lemma reshape_shape {A} (rows cols : nat) (a : list A) :
  length a = rows * cols ->
  length (reshape rows cols a) = rows /\
  Forall (fun row => length row = cols) (reshape rows cols a).
Proof.
  revert a. induction rows as [| r IH]; intros a Ha; [by split | ].
  cbn. destruct (IH (drop cols a)) as [Hl Hr].
  { rewrite length_drop. lia. }
  split; [by rewrite Hl | ].
  constructor; [ | exact Hr]. rewrite length_take. lia.
Qed.

End Matrices.

Section Evaluator.

Context {F : Type} `{Arith F} `{Trig F}.

Local Abbreviation complex := (complex F).

Lemma mul_arrays_tile (k : list F) (rows : list (list F)) :
  Forall (fun r => length r = length k) rows ->
  mul_arrays (replicate (length rows) k) rows
  = Returned (map (zip_with fmul k) rows).
Proof.
  induction 1 as [| r rows Hr _ IH]; [reflexivity | ].
  cbn. unfold mul_rows. rewrite Hr, Nat.eqb_refl. cbn.
  rewrite IH. reflexivity.
Qed.

Lemma length_vec_add (a b : list complex) :
  length b = length a -> length (vec_add a b) = length a.
Proof. intros E. unfold vec_add. rewrite length_zip_with. lia. Qed.

(** The loop adds the scaled rows in order. *)
Lemma accumulate_seq (E : list complex) (hr : list (list complex))
    (n i : nat) (temp : list complex) :
  i + n <= length E -> i + n <= length hr ->
  Forall (fun h => length h = length temp) hr ->
  accumulate E hr (seq i n) temp
  = Returned
      (fold_left vec_add
         (zip_with (fun e h => map (Cmul e) h)
                   (take n (drop i E)) (take n (drop i hr)))
         temp).
Proof.
  revert i temp. induction n as [| n IH]; intros i temp HE Hh Hrows.
  { reflexivity. }
  destruct (lookup_lt_is_Some_2 E i) as [e He]; [lia | ].
  destruct (lookup_lt_is_Some_2 hr i) as [row Hrow]; [lia | ].
  cbn [seq accumulate]. rewrite He, Hrow.
  assert (length row = length temp) as Hlen.
  { rewrite Forall_lookup in Hrows. by apply (Hrows i). }
  unfold add_scaled. rewrite Hlen, Nat.eqb_refl. cbn [rbind].
  rewrite IH; [ | lia | lia | ].
  - rewrite (drop_S E e i He), (drop_S hr row i Hrow). reflexivity.
  - rewrite length_zip_with, length_map, Hlen, Nat.min_id. exact Hrows.
Qed.

Lemma exp_ikr_phase (k : list F) (rows : list (list F)) :
  map exp_2pi_j (map np_sum (map (zip_with fmul k) rows))
  = map (phase k) rows.
Proof. rewrite !map_map. reflexivity. Qed.

Lemma zip_with_map_l {A B C D} (f : B -> C -> D) (g : A -> B)
    (l : list A) (l' : list C) :
  zip_with f (map g l) l' = zip_with (fun a c => f (g a) c) l l'.
Proof.
  revert l'. induction l as [| a l IH]; intros [| c l']; cbn; try reflexivity.
  by rewrite IH.
Qed.

Lemma length_fold_vec_add (terms : list (list complex))
    (temp : list complex) :
  Forall (fun t => length t = length temp) terms ->
  length (fold_left vec_add terms temp) = length temp.
Proof.
  revert temp. induction terms as [| t terms IH]; intros temp Ht.
  { reflexivity. }
  apply Forall_cons in Ht as [Ht Hts]. cbn.
  rewrite IH; rewrite length_vec_add by exact Ht; [reflexivity | exact Hts].
Qed.

(** On arguments of the right shapes no step of [get_hk_tb] raises: the
    phases are those of the rows of [w.R], and the loop leaves in [temp]
    the rows of [w.HR], each scaled by its phase, added up in order. *)
Lemma get_hk_tb_runs (k : list F) (w : WannierHam F) :
  shapes_ok k w ->
  get_hk_tb k w =
    Returned
      (symmetrize
         (reshape (nwan w) (nwan w)
            (fold_left vec_add
               (zip_with (fun e h => map (Cmul e) h)
                  (map exp_2pi_j
                     (map np_sum (map (zip_with fmul k) (R w))))
                  (HR w))
               (replicate (nwan w ^ 2) C0)))).
Proof.
  intros (Hk & HR3 & Hlen & Hrows). unfold get_hk_tb.
  rewrite mul_arrays_tile.
  2:{ eapply Forall_impl; [exact HR3 | ]. cbn. intros r ->. by rewrite Hk. }
  cbn [rbind]. rewrite accumulate_seq.
  - cbn [rbind]. rewrite drop_0, drop_0.
    by rewrite !firstn_all2 by (rewrite ?length_map; lia).
  - rewrite !length_map. lia.
  - lia.
  - by rewrite length_replicate.
Qed.

(** C3: on a wavevector and a Hamiltonian of the right shapes,
    [get_hk_tb(k, w)] returns the Hermitian symmetrization
    [(M + M^H) / 2] of the lattice sum
    [M = reshape(sum over r of exp(2 pi i (k . R_r)) HR_r, (nwan, nwan))],
    the sum running over every row of [w.R]. *)
Theorem get_hk_tb_is_symmetrized_fourier_sum (k : list F)
    (w : WannierHam F) :
  shapes_ok k w ->
  get_hk_tb k w =
    Returned
      (let M := reshape (nwan w) (nwan w) (fourier_sum k w) in
       mat_div (mat_add M (conj_transpose M)) f2).
Proof.
  intros Hs. rewrite (get_hk_tb_runs k w Hs).
  rewrite exp_ikr_phase, zip_with_map_l.
  unfold symmetrize, conj_transpose, fourier_sum. reflexivity.
Qed.

(** C2: on a wavevector and a Hamiltonian of the right shapes,
    [get_hk_tb(k, w)] returns a matrix that equals its own conjugate
    transpose. *)
Theorem get_hk_tb_hermitian (k : list F) (w : WannierHam F) :
  shapes_ok k w ->
  exists hk, get_hk_tb k w = Returned hk /\ conj_transpose hk = hk.
Proof.
  intros Hs. rewrite (get_hk_tb_runs k w Hs).
  eexists. split; [reflexivity | ].
  destruct Hs as (_ & _ & _ & Hrows).
  apply (symmetrize_hermitian (nwan w)), reshape_shape.
  rewrite length_fold_vec_add; rewrite length_replicate; [cbn; lia | ].
  apply Forall_forall. intros t Ht.
  apply elem_of_lookup_zip_with in Ht as (i & e & h & -> & _ & Hlook).
  rewrite length_map. rewrite Forall_lookup in Hrows. by apply (Hrows i).
Qed.

End Evaluator.

Lemma shapes_ok_k0_w0 : shapes_ok examples.k0 examples.w0.
Proof. repeat split; repeat constructor. Qed.

Lemma get_hk_tb_is_symmetrized_fourier_sum_witness :
  shapes_ok examples.k0 examples.w0 /\
  get_hk_tb examples.k0 examples.w0 =
    Returned
      (let M := reshape 2 2 (fourier_sum examples.k0 examples.w0) in
       mat_div (mat_add M (conj_transpose M)) 2%R).
Proof.
  split; [exact shapes_ok_k0_w0 | ].
  exact (get_hk_tb_is_symmetrized_fourier_sum examples.k0 examples.w0
           shapes_ok_k0_w0).
Defined.

Lemma get_hk_tb_hermitian_witness :
  shapes_ok examples.k0 examples.w0 /\
  exists hk,
    get_hk_tb examples.k0 examples.w0 = Returned hk /\
    conj_transpose hk = hk.
Proof.
  split; [exact shapes_ok_k0_w0 | ].
  apply (get_hk_tb_hermitian examples.k0 examples.w0).
  exact shapes_ok_k0_w0.
Defined.

(** Over the real numbers the phase factor is the point of the unit circle
    at angle [2 pi x]. *)
Lemma exp_2pi_j_real (x : Rdefinitions.R) :
  exp_2pi_j x = (cos (2 * PI * x), sin (2 * PI * x))%R.
Proof.
  unfold exp_2pi_j, Cexp, Cmul, Cj, C_of_real. cbn.
  match goal with
  | |- (exp ?a * cos ?b, exp ?a * sin ?b)%R = _ =>
      replace a with 0%R by ring; replace b with (2 * PI * x)%R by ring
  end.
  rewrite exp_0. f_equal; ring.
Qed.

(** At the zone centre the evaluator keeps the real part of a one-orbital
    Hamiltonian and drops the imaginary part. *)
Example get_hk_tb_gamma :
  get_hk_tb [0; 0; 0]%R examples.w1 = Returned [[(1, 0)%R]].
Proof.
  unfold get_hk_tb. cbn -[exp_2pi_j]. rewrite exp_2pi_j_real.
  replace (2 * PI * (0 + 0 * 0 + 0 * 0 + 0 * 0))%R with 0%R by ring.
  rewrite cos_0, sin_0. unfold symmetrize, Cmul, Cadd, Cconj, Cdiv_real, C0.
  cbn. do 3 f_equal. f_equal; field.
Qed.

End tight_binding_proofs.

(** * Properties of jarvis/io/phono3py/inputs.py *)

Module inputs_proofs.

Import phono3py_inputs.

(** ** Counting characters *)

Lemma count_char_app (c : ascii) (a b : string) :
  count_char c (a ++ b) = count_char c a + count_char c b.
Proof.
  induction a as [| d a IH]; [reflexivity | ].
  change (String d a ++ b) with (String d (a ++ b)).
  cbn [count_char]. rewrite IH. lia.
Qed.

Lemma append_assoc (a b c : string) : (a ++ b) ++ c = a ++ (b ++ c).
Proof.
  induction a as [| d a IH]; [reflexivity | ].
  change (String d ((a ++ b) ++ c) = String d (a ++ (b ++ c))).
  by rewrite IH.
Qed.

Lemma count_char_uint (c : ascii) (d : Decimal.uint) :
  (nat_of_ascii c < 48 \/ 57 < nat_of_ascii c) ->
  count_char c (NilEmpty.string_of_uint d) = 0.
Proof.
  intros Hc.
  assert (forall k : ascii, 48 <= nat_of_ascii k <= 57 ->
                            Ascii.eqb c k = false) as Hdigit.
  { intros k Hk. apply Ascii.eqb_neq. intros ->. lia. }
  induction d as [| d IH | d IH | d IH | d IH | d IH | d IH | d IH | d IH
                  | d IH | d IH];
    [reflexivity | cbn [NilEmpty.string_of_uint count_char]; rewrite IH ..];
    rewrite Hdigit by (vm_compute; lia); reflexivity.
Qed.

(** The text of an integer holds digits and a sign, hence no quote and no
    newline. *)
Lemma count_char_str_int (c : ascii) (n : Z) :
  (nat_of_ascii c < 45 \/ 57 < nat_of_ascii c) ->
  count_char c (str_int n) = 0.
Proof.
  intros Hc. unfold str_int, NilZero.string_of_int.
  assert (forall d, count_char c (NilZero.string_of_uint d) = 0) as Hu.
  { intros d. unfold NilZero.string_of_uint.
    destruct d; try (apply count_char_uint; lia).
    cbn. destruct (Ascii.eqb_spec c "0"); [subst; vm_compute in Hc; lia | done]. }
  destruct (Z.to_int n) as [d | d]; [apply Hu | ].
  cbn [count_char]. rewrite Hu.
  destruct (Ascii.eqb_spec c "-"); [subst; vm_compute in Hc; lia | done].
Qed.

Lemma count_char_join_ints (c : ascii) (l : list Z) :
  (nat_of_ascii c < 45 \/ 57 < nat_of_ascii c) ->
  nat_of_ascii c <> 32 ->
  count_char c (join_ints l) = 0.
Proof.
  intros Hc Hsp. unfold join_ints.
  induction l as [| n l IH]; [reflexivity | ].
  destruct l as [| m l]; [by apply count_char_str_int | ].
  change (count_char c (str_int n ++ " " ++ py_join " " (map str_int (m :: l)))
          = 0).
  rewrite !count_char_app, IH, count_char_str_int by exact Hc.
  cbn. destruct (Ascii.eqb_spec c " "); [subst; vm_compute in Hsp; lia | done].
Qed.

Lemma quotes_app (a b : string) : quotes (a ++ b) = quotes a + quotes b.
Proof. apply count_char_app. Qed.

Lemma quotes_join_ints (l : list Z) : quotes (join_ints l) = 0.
Proof. apply count_char_join_ints; vm_compute; lia. Qed.

Lemma quotes_str_int (n : Z) : quotes (str_int n) = 0.
Proof. apply count_char_str_int; vm_compute; lia. Qed.

(** The number of double quotes in the command. *)
Lemma quotes_prepare_jdos_cmd (obj : phonopy_obj) (poscar : string)
    (mesh : list Z) (temperatures : option (list Z)) (num_freq_points : Z)
    (pa : option (list Z)) :
  quotes (prepare_jdos_cmd obj poscar mesh temperatures num_freq_points pa)
  = 6 + quotes poscar + added temperatures + added pa.
Proof.
  unfold prepare_jdos_cmd.
  destruct temperatures as [ts | ], pa as [pa | ];
    rewrite !quotes_app, ?quotes_join_ints, ?quotes_str_int; cbn; lia.
Qed.

(** C9 (amended): with a temperatures list, [prepare_jdos] appends the
    text quote, [ --ts=], quote and the temperatures right after the value
    of [--num-freq-points], so that a quote precedes [--ts] and none
    closes its value; the command then holds two double quotes more than
    without temperatures, eight instead of six when [pa] is None and
    [poscar] holds none, an even number either way. *)
Theorem prepare_jdos_ts_quotes (obj : phonopy_obj) (poscar : string)
    (mesh ts : list Z) (num_freq_points : Z) :
  let plain := prepare_jdos_cmd obj poscar mesh None num_freq_points None in
  let with_ts :=
    prepare_jdos_cmd obj poscar mesh (Some ts) num_freq_points None in
  (exists head,
     plain = head ++ " --num-freq-points=" ++ str_int num_freq_points) /\
  with_ts = plain ++ quote ++ " --ts=" ++ quote ++ join_ints ts /\
  quotes plain = 6 + quotes poscar /\
  quotes with_ts = 8 + quotes poscar /\
  (quotes poscar = 0 -> Nat.Even (quotes plain) /\ Nat.Even (quotes with_ts)).
Proof.
  intros plain with_ts.
  assert (quotes plain = 6 + quotes poscar) as Hplain
    by (unfold plain; rewrite quotes_prepare_jdos_cmd; cbn; lia).
  assert (quotes with_ts = 8 + quotes poscar) as Hts
    by (unfold with_ts; rewrite quotes_prepare_jdos_cmd; cbn; lia).
  split; [ | split; [reflexivity | split; [exact Hplain | split]]].
  - exists ("phono3py --fc2 --dim=" ++ quote ++ join_ints (scell_dim obj)
            ++ quote ++ " --mesh=" ++ quote ++ join_ints mesh
            ++ quote ++ " -c " ++ poscar ++ " --jdos" ++ " --gp=" ++ quote
            ++ join_ints (ir_gridpoints obj mesh) ++ quote).
    unfold plain, prepare_jdos_cmd. by rewrite !append_assoc.
  - exact Hts.
  - intros Hp. rewrite Hplain, Hts, Hp. split; [by exists 3 | by exists 4].
Qed.

(** C9 as stated fails on a call with temperatures and without [pa]: the
    command holds eight double quotes, an even number. *)
Lemma prepare_jdos_ts_quotes_even :
  examples.cmd0 =
    "phono3py --fc2 --dim=" ++ quote ++ "2 2 2" ++ quote
    ++ " --mesh=" ++ quote ++ "11 11 11" ++ quote
    ++ " -c POSCAR-unitcell --jdos --gp=" ++ quote ++ "0 1 2 5" ++ quote
    ++ " --num-freq-points=201" ++ quote ++ " --ts=" ++ quote ++ "300 400" /\
  quotes examples.cmd0 = 8 /\
  ~ Nat.Odd (quotes examples.cmd0).
Proof.
  split; [vm_compute; reflexivity | ].
  assert (quotes examples.cmd0 = 8) as E by (vm_compute; reflexivity).
  split; [exact E | ]. rewrite E. intros [k Hk]. lia.
Qed.

(** ** Lines of text *)

Lemma no_newline_cons (c : ascii) (s : string) :
  Ascii.eqb nl_char c = false -> no_newline s -> no_newline (String c s).
Proof. unfold no_newline. cbn [count_char]. intros -> ->. reflexivity. Qed.

Lemma is_linebreak_nl (c : ascii) :
  is_linebreak c = false -> Ascii.eqb nl_char c = false.
Proof.
  intros Hc. apply Ascii.eqb_neq. intros <-. vm_compute in Hc. discriminate.
Qed.

Lemma splitlines_no_newline_bounded (n : nat) (s : string) :
  String.length s <= n -> Forall no_newline (splitlines s).
Proof.
  revert s. induction n as [| n IH]; intros s Hlen.
  { destruct s; [constructor | cbn in Hlen; lia]. }
  destruct s as [| c rest]; [constructor | ].
  cbn in Hlen. cbn [splitlines].
  destruct (is_linebreak c) eqn:Hc.
  - destruct rest as [| d rest']; [by repeat constructor | ].
    cbn in Hlen.
    destruct (_ && _)%bool;
      (constructor; [reflexivity | apply IH; cbn; lia]).
  - pose proof (IH rest ltac:(lia)) as Hrest.
    destruct (splitlines rest) as [| line lines].
    + repeat constructor. apply no_newline_cons;
        [by apply is_linebreak_nl | reflexivity].
    + apply Forall_cons in Hrest as [Hline Hlines].
      constructor; [ | exact Hlines].
      apply no_newline_cons; [by apply is_linebreak_nl | exact Hline].
Qed.

(** No line that [splitlines] yields holds a newline. *)
Lemma splitlines_no_newline (s : string) : Forall no_newline (splitlines s).
Proof. by apply (splitlines_no_newline_bounded (String.length s)). Qed.

Lemma no_newline_inv (c : ascii) (s : string) :
  no_newline (String c s) -> Ascii.eqb c nl_char = false /\ no_newline s.
Proof.
  unfold no_newline. cbn [count_char]. rewrite (Ascii.eqb_sym nl_char c).
  destruct (Ascii.eqb c nl_char); [discriminate | by split].
Qed.

Lemma split_nl_line (x rest : string) :
  no_newline x -> split_nl (x ++ nl ++ rest) = x :: split_nl rest.
Proof.
  induction x as [| c x IH]; intros Hx.
  { change (split_nl (String nl_char rest) = "" :: split_nl rest).
    cbn [split_nl]. by rewrite Ascii.eqb_refl. }
  apply no_newline_inv in Hx as [Hc Hx].
  change (split_nl (String c (x ++ nl ++ rest)) = String c x :: split_nl rest).
  cbn [split_nl]. rewrite Hc, (IH Hx). reflexivity.
Qed.

Lemma split_nl_last (x : string) : no_newline x -> split_nl x = [x].
Proof.
  induction x as [| c x IH]; intros Hx; [reflexivity | ].
  apply no_newline_inv in Hx as [Hc Hx].
  cbn [split_nl]. rewrite Hc, (IH Hx). reflexivity.
Qed.

(** Joining lines with newlines and splitting at newlines gives the lines
    back. *)
Lemma split_nl_join (ls : list string) :
  ls <> [] -> Forall no_newline ls -> split_nl (py_join nl ls) = ls.
Proof.
  induction ls as [| x ls IH]; intros Hne Hall; [done | ].
  apply Forall_cons in Hall as [Hx Hls].
  destruct ls as [| y ls]; [by apply split_nl_last | ].
  change (split_nl (x ++ nl ++ py_join nl (y :: ls)) = x :: y :: ls).
  rewrite split_nl_line by exact Hx. by rewrite IH.
Qed.

(** ** The dilated and the constricted POSCAR *)

Section GruneisenProofs.

Context {F : Type} `{Arith F} (T : float_text F).

(** What a successful call writes: the lines of the original with the
    second one replaced. *)
Lemma gruneisen_run (orig_poscar text l1 : string) (x scale : F)
    (s : state) :
  files s !! orig_poscar = Some text ->
  splitlines text !! 1 = Some l1 ->
  parse_float T l1 = Returned x ->
  feqb scale f0 = false ->
  prepare_gruneisen_quasiharmonic T orig_poscar scale s =
    (Returned tt,
     written s
       (py_join nl (<[1 := str_float T (fmul x scale)]> (splitlines text)))
       (py_join nl (<[1 := str_float T (fdiv x scale)]> (splitlines text)))).
Proof.
  intros Hf Hl Hp Hz. unfold prepare_gruneisen_quasiharmonic, getitem.
  unfold bind at 1. unfold read_file at 1. rewrite Hf, Hl.
  py_unfold. cbn beta iota. rewrite Hp. cbn beta iota.
  unfold py_truediv. rewrite Hz. unfold written. cbn [files log].
  rewrite list_insert_insert_eq. reflexivity.
Qed.

Lemma replaced_lines (lines : list string) (l1 new : string) :
  lines !! 1 = Some l1 -> no_newline new ->
  Forall no_newline lines ->
  split_nl (py_join nl (<[1 := new]> lines)) = <[1 := new]> lines.
Proof.
  intros Hl Hnew Hall. apply split_nl_join.
  - destruct lines as [| a [| b lines]]; discriminate.
  - by apply Forall_insert.
Qed.

(** C8: for a POSCAR whose second line reads as a number and a scale
    factor other than zero, the call writes POSCAR-plus and POSCAR-minus;
    the second line of the first is the text of the original scale times
    [scale], that of the second the text of the original scale divided by
    [scale], and every other line of both is the line of the original at
    the same position. *)
Theorem gruneisen_rescales_second_line_only (orig_poscar text l1 : string)
    (x scale : F) (s : state) :
  files s !! orig_poscar = Some text ->
  splitlines text !! 1 = Some l1 ->
  parse_float T l1 = Returned x ->
  feqb scale f0 = false ->
  no_newline (str_float T (fmul x scale)) ->
  no_newline (str_float T (fdiv x scale)) ->
  exists plus minus,
    prepare_gruneisen_quasiharmonic T orig_poscar scale s =
      (Returned tt, written s plus minus) /\
    split_nl plus !! 1 = Some (str_float T (fmul x scale)) /\
    split_nl minus !! 1 = Some (str_float T (fdiv x scale)) /\
    forall i, i <> 1 ->
      split_nl plus !! i = splitlines text !! i /\
      split_nl minus !! i = splitlines text !! i.
Proof.
  intros Hf Hl Hp Hz Hplus Hminus.
  pose proof (splitlines_no_newline text) as Hall.
  assert (1 < length (splitlines text)) as Hlen
    by (apply lookup_lt_is_Some; eauto).
  eexists _, _. split; [by apply (gruneisen_run orig_poscar text l1) | ].
  rewrite !(replaced_lines _ l1) by assumption.
  rewrite !list_lookup_insert_eq by exact Hlen.
  repeat split; by rewrite list_lookup_insert_ne.
Qed.

End GruneisenProofs.

Lemma gruneisen_rescales_second_line_only_witness :
  exists plus minus,
    prepare_gruneisen_quasiharmonic examples.T0 "POSCAR-unitcell" 2%Q
                                    examples.s_poscar =
      (Returned tt, written examples.s_poscar plus minus) /\
    split_nl plus !! 1 = Some "10.86" /\
    split_nl minus !! 1 = Some "2.715" /\
    forall i, i <> 1 ->
      split_nl plus !! i = splitlines examples.poscar0 !! i /\
      split_nl minus !! i = splitlines examples.poscar0 !! i.
Proof.
  exact (gruneisen_rescales_second_line_only examples.T0 "POSCAR-unitcell"
           examples.poscar0 "5.43" (543 # 100)%Q 2%Q examples.s_poscar
           eq_refl eq_refl eq_refl eq_refl eq_refl eq_refl).
Defined.

(** The two files of the example, as written. *)
Example gruneisen_files :
  prepare_gruneisen_quasiharmonic examples.T0 "POSCAR-unitcell" 2%Q
                                  examples.s_poscar =
    (Returned tt,
     written examples.s_poscar
       ("Si2" ++ nl ++ "10.86" ++ nl ++ "0.0 0.5 0.5" ++ nl ++ "0.5 0.0 0.5")
       ("Si2" ++ nl ++ "2.715" ++ nl ++ "0.0 0.5 0.5" ++ nl ++ "0.5 0.0 0.5")).
Proof. vm_compute. reflexivity. Qed.

(** A scale factor of zero stops the call at the division, before any
    file is written. *)
Example gruneisen_zero_scale :
  prepare_gruneisen_quasiharmonic examples.T0 "POSCAR-unitcell" 0%Q
                                  examples.s_poscar =
    (Raised ZeroDivisionError, examples.s_poscar).
Proof. vm_compute. reflexivity. Qed.

End inputs_proofs.

(** * Properties of jarvis/io/phono3py/outputs.py *)

Module outputs_proofs.

Import phono3py_outputs.

Section KappaProofs.

Context {F : Type} `{Arith F}.

Lemma py_index_of_member (x : F) (l : list F) :
  py_in x l = true ->
  exists i y, py_index x l = Returned i /\ l !! i = Some y /\
              feqb x y = true /\
              forall j z, j < i -> l !! j = Some z -> feqb x z = false.
Proof.
  induction l as [| y l IH]; [discriminate | ].
  cbn [py_in existsb py_index]. destruct (feqb x y) eqn:E.
  - intros _. exists 0, y. repeat split; [exact E | lia].
  - intros Hin. destruct (IH Hin) as (i & z & Hi & Hz & Hxz & Hfirst).
    exists (S i), z. rewrite Hi. repeat split; [exact Hz | exact Hxz | ].
    intros [| j] u Hj Hu; [by injection Hu as <- | ].
    apply (Hfirst j u); [lia | exact Hu].
Qed.

Lemma dict_get_raises (d : gmap string (ndarray F)) (key : string) (e : exn) :
  dict_get d key = Raised e -> e = KeyError key.
Proof. unfold dict_get. destruct (d !! key); congruence. Qed.

Lemma item_raises (a : ndarray F) (i : nat) (e : exn) :
  item a i = Raised e -> e = IndexError.
Proof.
  unfold item. destruct a as [x | items]; [congruence | ].
  destruct (items !! i); congruence.
Qed.

(** C5 (amended): a temperature that is not in [self.temperatures] makes
    [kappa] raise its generic exception.  One that is in the list never
    does: with [i] the first index of T in [self.temperatures], the call
    returns [self.dict["kappa"][i]] for the format "tensor" and
    [self.dict["kappa"][i][0]] for "scalar_xx" whenever these entries
    exist, and None for any other format. *)
Theorem kappa_by_membership (self : Kappa) (T : F) :
  (py_in T (temperatures self) = false ->
   kappa self T =
     Raised (Exception_ "Kappa not evaluated at this temperature.")) /\
  (py_in T (temperatures self) = true ->
   exists i,
     py_index T (temperatures self) = Returned i /\
     (forall msg, kappa self T <> Raised (Exception_ msg)) /\
     (forall rows row,
        dict self !! "kappa" = Some (Array rows) -> rows !! i = Some row ->
        (kappa_format self = "tensor" ->
         kappa self T = Returned (Some row)) /\
        (kappa_format self = "scalar_xx" ->
         forall xs x, row = Array xs -> xs !! 0 = Some x ->
         kappa self T = Returned (Some x))) /\
     (kappa_format self <> "tensor" -> kappa_format self <> "scalar_xx" ->
      kappa self T = Returned None)).
Proof.
  split.
  - intros Hin. unfold kappa. by rewrite Hin.
  - intros Hin. destruct (py_index_of_member _ _ Hin) as (i & y & Hi & _).
    exists i. split; [exact Hi | ]. unfold kappa. rewrite Hin, Hi.
    cbn [negb rbind]. split; [ | split].
    + intros msg.
      destruct (String.eqb_spec (kappa_format self) "tensor") as [_ | _];
        [ | destruct (String.eqb_spec (kappa_format self) "scalar_xx")
              as [_ | _]; [ | discriminate]];
        (destruct (dict_get (dict self) "kappa") as [k | e] eqn:Ek;
         [ | apply dict_get_raises in Ek; subst e; discriminate]);
        cbn [rbind];
        (destruct (item k i) as [row | e] eqn:Er;
         [ | apply item_raises in Er; subst e; discriminate]);
        cbn [rbind]; [discriminate | ].
      destruct (item row 0) as [x | e] eqn:Ex;
        [discriminate | apply item_raises in Ex; subst e; discriminate].
    + intros rows row Hk Hr. split.
      * intros ->. rewrite String.eqb_refl. unfold dict_get.
        rewrite Hk. cbn. by rewrite Hr.
      * intros Hfmt xs x -> Hx. rewrite Hfmt. cbn. unfold dict_get.
        rewrite Hk. cbn. rewrite Hr. cbn. by rewrite Hx.
    + intros Ht Hs.
      destruct (String.eqb_spec (kappa_format self) "tensor"); [done | ].
      by destruct (String.eqb_spec (kappa_format self) "scalar_xx").
Qed.

End KappaProofs.

(** C5 as stated fails on an object made with more temperatures than the
    file holds: 400 is in [self.temperatures], and [kappa(400)] raises the
    IndexError of the missing row. *)
Lemma kappa_listed_temperature_raises :
  Kappa_init examples.kappa_file (Some [300; 400]%Q) "scalar_xx" =
    Returned examples.kappa_obj /\
  py_in 400%Q (temperatures examples.kappa_obj) = true /\
  kappa examples.kappa_obj 400%Q = Raised IndexError /\
  kappa examples.kappa_obj 300%Q = Returned (Some (Scalar 130%Q)).
Proof. repeat split; vm_compute; reflexivity. Qed.

(** ** JDOS.select_jdos *)

Section SelectProofs.

Context {F : Type} `{Arith F}.

Lemma rmap_length {A B} (f : A -> result B) (l : list A) (l' : list B) :
  rmap f l = Returned l' -> length l' = length l.
Proof.
  revert l'. induction l as [| a l IH]; intros l' E; cbn in E.
  { by injection E as <-. }
  destruct (f a) as [b | e]; [ | discriminate]. cbn in E.
  destruct (rmap f l) as [bs | e]; [ | discriminate]. cbn in E.
  injection E as <-. cbn. by rewrite (IH bs).
Qed.

Lemma rmap_lookup {A B} (f : A -> result B) (l : list A) (l' : list B)
    (p : nat) (a : A) :
  rmap f l = Returned l' -> l !! p = Some a ->
  exists b, f a = Returned b /\ l' !! p = Some b.
Proof.
  revert l' p. induction l as [| a0 l IH]; intros l' p E Hp; [done | ].
  cbn in E. destruct (f a0) as [b0 | e] eqn:E0; [ | discriminate].
  cbn in E. destruct (rmap f l) as [bs | e]; [ | discriminate].
  cbn in E. injection E as <-.
  destruct p as [| p]; [injection Hp as <-; eauto | ].
  apply (IH bs p eq_refl Hp).
Qed.

Lemma column_length (j : nat) (data : list (list F)) (col : list F) :
  column j data = Returned col -> length col = length data.
Proof. destruct data; [discriminate | ]. apply rmap_length. Qed.

(** Below the first edge of non-decreasing bins, [np.digitize] yields 0. *)
Lemma digitize_below_first (x b0 : F) (bins : list F) :
  monotonicity (b0 :: bins) = 1%Z -> fltb x b0 = true ->
  digitize x (b0 :: bins) = Returned 0.
Proof.
  intros Hm Hx. unfold digitize. rewrite Hm. cbn. by rewrite Hx.
Qed.

(** A non-negative index reads from the front, the index -1 reads the last
    element. *)
Lemma np_getitem_nonneg (a : list F) (i : nat) (x : F) :
  a !! i = Some x -> np_getitem a (Z.of_nat i) = Returned x.
Proof.
  intros Hx. assert (i < length a) by (apply lookup_lt_is_Some; eauto).
  unfold np_getitem.
  destruct (Z.ltb_spec (Z.of_nat i) 0); [lia | ].
  destruct (Z.leb_spec 0 (Z.of_nat i)); [ | lia].
  destruct (Z.ltb_spec (Z.of_nat i) (Z.of_nat (length a))); [ | lia].
  cbn [andb]. by rewrite Nat2Z.id, Hx.
Qed.

Lemma np_getitem_minus_1 (a : list F) (x : F) :
  last a = Some x -> np_getitem a (-1) = Returned x.
Proof.
  intros Hx. rewrite last_lookup in Hx.
  assert (0 < length a).
  { destruct a; [discriminate | cbn; lia]. }
  unfold np_getitem. change (-1 <? 0)%Z with true. cbn iota.
  destruct (Z.leb_spec 0 (-1 + Z.of_nat (length a))); [ | lia].
  destruct (Z.ltb_spec (-1 + Z.of_nat (length a)) (Z.of_nat (length a)));
    [ | lia].
  cbn [andb].
  replace (Z.to_nat (-1 + Z.of_nat (length a))) with (pred (length a)) by lia.
  by rewrite Hx.
Qed.

(** Index 0 pairs the first element with the last one. *)
Lemma bin_average_0 (N2 : list F) (first final : F) :
  N2 !! 0 = Some first -> last N2 = Some final ->
  bin_average N2 0 = Returned (fdiv (fadd first final) f2).
Proof.
  intros H0 Hl. unfold bin_average.
  rewrite (np_getitem_nonneg N2 0 first H0). cbn [rbind].
  change (Z.of_nat 0 - 1)%Z with (-1)%Z.
  by rewrite (np_getitem_minus_1 N2 final Hl).
Qed.

Lemma np_getitem_nonneg_inv (a : list F) (i : nat) (x : F) :
  np_getitem a (Z.of_nat i) = Returned x -> a !! i = Some x.
Proof.
  unfold np_getitem. destruct (Z.ltb_spec (Z.of_nat i) 0); [lia | ].
  destruct (_ && _)%bool; [ | discriminate].
  rewrite Nat2Z.id. destruct (a !! i); congruence.
Qed.

Lemma np_getitem_minus_1_inv (a : list F) (x : F) :
  np_getitem a (-1) = Returned x -> last a = Some x.
Proof.
  intros Hx. destruct (last a) as [final | ] eqn:Hl.
  - rewrite (np_getitem_minus_1 a final Hl) in Hx. congruence.
  - apply last_None in Hl. subst a. discriminate.
Qed.

(** What the loop body computes for one grid point: for every branch the
    average of [N2] at the bin of [np.digitize] and at the index before
    it. *)
Lemma select_row_values (data : list (list F)) (branches out : list F) :
  select_row data branches = Returned out ->
  exists freq c1 c2,
    column 0 data = Returned freq /\
    column 1 data = Returned c1 /\
    column 2 data = Returned c2 /\
    length out = length branches /\
    forall p x,
      branches !! p = Some x ->
      exists i hi lo,
        digitize x freq = Returned i /\
        np_getitem (zip_with fadd c1 c2) (Z.of_nat i) = Returned hi /\
        np_getitem (zip_with fadd c1 c2) (Z.of_nat i - 1) = Returned lo /\
        out !! p = Some (fdiv (fadd hi lo) f2).
Proof.
  unfold select_row. intros Hsel.
  destruct (column 0 data) as [freq | ]; [ | discriminate].
  destruct (column 1 data) as [c1 | ]; [ | discriminate].
  destruct (column 2 data) as [c2 | ]; [ | discriminate].
  cbn [rbind] in Hsel.
  destruct (rmap (fun x => digitize x freq) branches) as [idx | e] eqn:Ei;
    [ | discriminate].
  cbn [rbind] in Hsel.
  exists freq, c1, c2. do 3 (split; [reflexivity | ]). split.
  { rewrite (rmap_length _ _ _ Hsel). apply (rmap_length _ _ _ Ei). }
  intros p x Hp.
  destruct (rmap_lookup _ _ _ p x Ei Hp) as (i & Hi & Hidx).
  destruct (rmap_lookup _ _ _ p i Hsel Hidx) as (v & Hv & Hout).
  exists i. unfold bin_average in Hv.
  destruct (np_getitem _ (Z.of_nat i)) as [hi | e]; [ | discriminate].
  cbn [rbind] in Hv.
  destruct (np_getitem _ (Z.of_nat i - 1)) as [lo | e]; [ | discriminate].
  cbn [rbind] in Hv. injection Hv as <-. by exists hi, lo.
Qed.

(** One iteration of the loop of [select_jdos] that goes through: it has
    read the file of the grid point and put the row of averages at the
    position of the grid point. *)
Lemma select_body_returned (self : JDOS) (width : nat)
    (st st' : list (list F)) (ggp : nat * Z) (s s' : state) :
  select_body self width st ggp s = (Returned st', s') ->
  s' = s /\
  exists text data branches row,
    files s !! jdos_file self ggp.2 = Some text /\
    genfromtxt self text = Returned data /\
    frequencies self !! ggp.1 = Some branches /\
    select_row data branches = Returned row /\
    st' = <[ggp.1 := row]> st.
Proof.
  unfold select_body, bind at 1, read_file at 1.
  destruct (files s !! jdos_file self ggp.2) as [text | ] eqn:Hf;
    [ | discriminate].
  unfold bind at 1, lift at 1.
  destruct (genfromtxt self text) as [data | ] eqn:Hg; [ | discriminate].
  unfold bind at 1, lift at 1.
  destruct (frequencies self !! ggp.1) as [branches | ] eqn:Hb;
    [ | discriminate].
  unfold bind at 1, lift at 1.
  destruct (select_row data branches) as [row | ] eqn:Hrow; [ | discriminate].
  destruct (Nat.eqb _ _); [ | discriminate].
  unfold ret. intros [= <- <-]. split; [reflexivity | ].
  by exists text, data, branches, row.
Qed.

(** The loop of [select_jdos] from the grid point number [g0] on: every
    grid point of the list ends with its row of averages at its position,
    and the rows before [g0] stay. *)
Lemma select_loop_rows (self : JDOS) (width : nat) (uids : list Z)
    (g0 : nat) (st st' : list (list F)) (s s' : state) :
  for_each (select_body self width)
           (imap (fun g gp => (g0 + g, gp)) uids) st s = (Returned st', s') ->
  g0 + length uids <= length st ->
  s' = s /\
  (forall g, g < g0 -> st' !! g = st !! g) /\
  forall j gp,
    uids !! j = Some gp ->
    exists text data branches row,
      files s !! jdos_file self gp = Some text /\
      genfromtxt self text = Returned data /\
      frequencies self !! (g0 + j) = Some branches /\
      select_row data branches = Returned row /\
      st' !! (g0 + j) = Some row.
Proof.
  revert g0 st s. induction uids as [| gp0 uids IH]; intros g0 st s Hrun Hlen.
  { cbn in Hrun. injection Hrun as <- <-.
    split; [reflexivity | ]. split; [reflexivity | ].
    intros j gp Hj. by rewrite lookup_nil in Hj. }
  cbn [imap for_each] in Hrun. unfold bind at 1 in Hrun.
  destruct (select_body self width st (g0 + 0, gp0) s) as [[st1 | e] s1] eqn:E;
    [ | discriminate].
  apply select_body_returned in E
    as (-> & text & data & branches & row & Hf & Hg & Hb & Hrow & ->).
  cbn [fst snd] in *. cbn [length] in Hlen.
  rewrite (imap_ext _ (fun g gp => (S g0 + g, gp))) in Hrun
    by (intros; cbn; f_equal; lia).
  apply IH in Hrun as (-> & Hbefore & Hrows);
    [ | rewrite length_insert; lia].
  split; [reflexivity | ]. split.
  - intros g Hg0. rewrite Hbefore by lia.
    apply list_lookup_insert_ne. lia.
  - intros [| j] gp Hj.
    + injection Hj as <-. exists text, data, branches, row.
      do 4 (split; [assumption | ]).
      rewrite Hbefore by lia. apply list_lookup_insert_eq. lia.
    + destruct (Hrows j gp Hj) as (text' & data' & branches' & row' & H').
      exists text', data', branches', row'.
      by replace (g0 + S j) with (S g0 + j) by lia.
Qed.

(** C10 (amended): every value that [select_jdos] returns is
    [(N2[i] + N2[i-1]) / 2], with [N2] the sum of the second and the third
    column of the file of the grid point and [i] the bin that
    [np.digitize] gives the branch frequency among the frequencies of the
    file.  When these frequencies do not decrease, a branch frequency below
    the first of them gets [i = 0], and its value is the average of
    [N2[0]] and of the last element of [N2], reached through the index
    -1. *)
Theorem select_jdos_wraps_below_first_edge (self : JDOS) (s s' : state)
    (jdos_ir : list (list F)) (g : nat) (gp : Z) :
  select_jdos self s = (Returned jdos_ir, s') ->
  gridpt_uids self !! g = Some gp ->
  exists text data freq c1 c2 branches row,
    files s !! jdos_file self gp = Some text /\
    genfromtxt self text = Returned data /\
    column 0 data = Returned freq /\
    column 1 data = Returned c1 /\
    column 2 data = Returned c2 /\
    frequencies self !! g = Some branches /\
    jdos_ir !! g = Some row /\
    length row = length branches /\
    let N2 := zip_with fadd c1 c2 in
    forall p x,
      branches !! p = Some x ->
      exists i hi lo,
        digitize x freq = Returned i /\
        np_getitem N2 (Z.of_nat i) = Returned hi /\
        np_getitem N2 (Z.of_nat i - 1) = Returned lo /\
        row !! p = Some (fdiv (fadd hi lo) f2) /\
        (forall b0,
           monotonicity freq = 1%Z -> freq !! 0 = Some b0 ->
           fltb x b0 = true ->
           i = 0 /\ N2 !! 0 = Some hi /\ last N2 = Some lo).
Proof.
  intros Hrun Hgp. unfold select_jdos, bind at 1, lift at 1 in Hrun.
  destruct (frequencies self !! 0) as [first | ]; [ | discriminate].
  apply (select_loop_rows self (length first) (gridpt_uids self) 0) in Hrun
    as (_ & _ & Hrows); [ | by rewrite length_replicate].
  destruct (Hrows g gp Hgp)
    as (text & data & branches & row & Hf & Hg & Hb & Hrow & Hout).
  destruct (select_row_values data branches row Hrow)
    as (freq & c1 & c2 & H0 & H1 & H2 & Hlen & Hvals).
  exists text, data, freq, c1, c2, branches, row.
  do 8 (split; [assumption | ]).
  intros N2 p x Hp. destruct (Hvals p x Hp) as (i & hi & lo & Hi & Hhi & Hlo & Hv).
  exists i, hi, lo. do 4 (split; [assumption | ]).
  intros b0 Hm Hb0 Hx.
  destruct freq as [| b bins]; [discriminate | ]. injection Hb0 as ->.
  rewrite (digitize_below_first x b0 bins Hm Hx) in Hi. injection Hi as <-.
  split; [reflexivity | ]. split.
  - by apply np_getitem_nonneg_inv.
  - by apply np_getitem_minus_1_inv.
Qed.

End SelectProofs.

Lemma select_jdos_wraps_below_first_edge_witness :
  select_jdos examples.jdos_obj examples.s_jdos =
    (Returned [[44 # 2; 55 # 2]%Q], examples.s_jdos) /\
  exists text data freq c1 c2 branches row,
    files examples.s_jdos !! jdos_file examples.jdos_obj 0 = Some text /\
    genfromtxt examples.jdos_obj text = Returned data /\
    column 0 data = Returned freq /\
    column 1 data = Returned c1 /\
    column 2 data = Returned c2 /\
    frequencies examples.jdos_obj !! 0 = Some branches /\
    [[44 # 2; 55 # 2]%Q] !! 0 = Some row /\
    length row = length branches /\
    let N2 := zip_with fadd c1 c2 in
    forall p x,
      branches !! p = Some x ->
      exists i hi lo,
        digitize x freq = Returned i /\
        np_getitem N2 (Z.of_nat i) = Returned hi /\
        np_getitem N2 (Z.of_nat i - 1) = Returned lo /\
        row !! p = Some (fdiv (fadd hi lo) f2) /\
        (forall b0,
           monotonicity freq = 1%Z -> freq !! 0 = Some b0 ->
           fltb x b0 = true ->
           i = 0 /\ N2 !! 0 = Some hi /\ last N2 = Some lo).
Proof.
  assert (select_jdos examples.jdos_obj examples.s_jdos =
            (Returned [[44 # 2; 55 # 2]%Q], examples.s_jdos)) as Hrun
    by (vm_compute; reflexivity).
  split; [exact Hrun | ].
  exact (select_jdos_wraps_below_first_edge examples.jdos_obj examples.s_jdos
           examples.s_jdos [[44 # 2; 55 # 2]%Q] 0 0%Z Hrun eq_refl).
Defined.

(** C10 as stated fails on a file whose frequencies decrease: the branch
    frequency 5/2 is below the first frequency 3, [np.digitize] gives it
    the bin 1, and [select_jdos] returns (22 + 33) / 2, the average of
    [N2[1]] and [N2[0]], two adjacent bins; the last element 11 of [N2]
    plays no part. *)
Lemma select_jdos_decreasing_frequencies_no_wrap :
  column 0 examples.jdos_table_desc = Returned [3; 2; 1]%Q /\
  fltb (5 # 2)%Q 3%Q = true /\
  digitize (5 # 2)%Q [3; 2; 1]%Q = Returned 1 /\
  zip_with fadd [30; 20; 10]%Q [3; 2; 1]%Q = [33; 22; 11]%Q /\
  select_jdos examples.jdos_obj_desc examples.s_jdos =
    (Returned [[fdiv (fadd 22 33) 2]%Q], examples.s_jdos) /\
  (fdiv (fadd 22 33) 2 <> fdiv (fadd 33 11) 2)%Q.
Proof. repeat split; vm_compute; congruence. Qed.

(** The whole of [select_jdos] on the example: the branch at 1/2 lies
    below the first frequency 1 and gets (11 + 33) / 2, the average of the
    first and the last N2; the branch at 5/2 gets (33 + 22) / 2. *)
Example select_jdos_example :
  select_jdos examples.jdos_obj examples.s_jdos =
    (Returned [[44 # 2; 55 # 2]%Q], examples.s_jdos).
Proof. vm_compute. reflexivity. Qed.

(** A branch frequency at or above the last edge gets the index
    [len(freq)], which is out of range for N2. *)
Example select_row_above_last_edge :
  select_row examples.jdos_table [3%Q] = Raised IndexError.
Proof. vm_compute. reflexivity. Qed.

End outputs_proofs.

(** * Further properties of jarvis/db/figshare.py *)

Module figshare_more_proofs.

Import figshare figshare_proofs.

Lemma logs_logs (s : state) (a b : list event) :
  logs (logs s a) b = logs s (a ++ b).
Proof. unfold logs. cbn. by rewrite app_assoc. Qed.

Lemma logs_nil (s : state) : logs s [] = s.
Proof. destruct s. unfold logs. cbn. by rewrite app_nil_r. Qed.

Section DataMore.

Context {json : Type} (L : libs json).

(** X1: for a name that is not in the catalog, [data] stops at the
    [return] of [datasets]: it raises UnboundLocalError, makes no HTTP
    request and leaves the disk as it is. *)
Theorem data_unknown_name (name : string) (s : state) :
  name ∉ catalog_names ->
  data L name s =
    (Raised (UnboundLocalError "url"),
     logs s [Discard (ValueError ["Dataset doesnt exist"; name])]).
Proof.
  intros Hc. unfold data, datasets. unfold bind at 1. unfold bind at 1.
  by rewrite (datasets_chain_else L name s Hc).
Qed.

(** What a run of [data] that returns leaves behind: the cached file, whose
    decoding is the document returned. *)
Lemma data_returned_cached (name u t : string) (s s' : state) (j : json) :
  catalog !! name = Some (u, t) ->
  data L name s = (Returned j, s') ->
  exists text,
    files s' !! path_join (module_dir L) t = Some text /\
    json_loads L text = Returned j.
Proof.
  intros Hc Hrun.
  destruct (files s !! path_join (module_dir L) t) as [text | ] eqn:Hf.
  - destruct (data_cached L name u t text s Hc Hf) as [msg E].
    rewrite E in Hrun. injection Hrun as Hj <-. by exists text.
  - destruct (datasets_known L name u t s Hc) as [msg E].
    unfold data, bind at 1 in Hrun. rewrite E in Hrun. cbn [fst snd] in Hrun.
    unfold loadjson, http_get, logs in Hrun.
    revert Hrun. py_run. rewrite Hf.
    rewrite bool_decide_eq_false_2 by (intros [? ?]; discriminate).
    py_run. destruct (requests_get L u) as [content | e]; [ | discriminate].
    py_run. rewrite lookup_insert_eq.
    destruct (zip_members L content) as [members | e]; [ | discriminate].
    py_run.
    destruct (extract_into_is_Some (module_dir L) members
                (<[path_join (module_dir L) "tmp.zip" := content]> (files s))
                (path_join (module_dir L) "tmp.zip")) as [z Hz].
    { rewrite lookup_insert_eq. eauto. }
    rewrite Hz. py_run.
    match goal with
    | |- context [match ?fs !! ?p with _ => _ end] =>
        destruct (fs !! p) as [text | ] eqn:Hfs; [ | discriminate]
    end.
    intros Hrun. injection Hrun as Hj <-. by exists text.
Qed.

(** X2: once [data] has returned a document for a catalogued dataset, a
    second call returns the same document from the cached file: it makes
    no HTTP request and leaves the disk as it is. *)
Theorem data_second_call_is_cached (name u t : string) (s s' : state)
    (j : json) :
  catalog !! name = Some (u, t) ->
  data L name s = (Returned j, s') ->
  exists msg,
    data L name s' = (Returned j, logs s' [Printed msg]) /\
    http_free [Printed msg].
Proof.
  intros Hc Hrun.
  destruct (data_returned_cached name u t s s' j Hc Hrun) as (text & Hf & Hj).
  destruct (data_cached L name u t text s' Hc Hf) as [msg E].
  exists msg. rewrite E, Hj. split; [reflexivity | ].
  intros v Hv. apply elem_of_cons in Hv as [Hv | Hv]; [discriminate | ].
  by apply elem_of_nil in Hv.
Qed.

(** X3: when the downloaded bytes are no zip archive, [data] raises what
    the zip library raises and leaves [tmp.zip] on disk with the bytes of
    the download: the removal comes after the extraction. *)
Theorem data_bad_archive_leaves_tmp_zip (name u t content : string)
    (e : exn) (s : state) :
  catalog !! name = Some (u, t) ->
  files s !! path_join (module_dir L) t = None ->
  requests_get L u = Returned content ->
  zip_members L content = Raised e ->
  exists msg,
    data L name s =
      (Raised e,
       mkState (<[path_join (module_dir L) "tmp.zip" := content]> (files s))
               (log s ++ [Printed msg; HttpGet u])).
Proof.
  intros Hc Hf Hget Hzip.
  destruct (datasets_known L name u t s Hc) as [msg E].
  exists msg. unfold data, bind at 1. rewrite E. cbn [fst snd].
  unfold loadjson, http_get, logs. py_run.
  rewrite Hf. rewrite bool_decide_eq_false_2 by (intros [? ?]; discriminate).
  py_run. rewrite Hget. py_run. rewrite lookup_insert_eq, Hzip.
  py_run. by rewrite <- app_assoc.
Qed.

(** X4: [get_ff_eneleast] downloads once.  With the file absent and the
    request answered, it stores the answer as it comes under [jff1.json]
    and returns its decoding, or raises the error of the decoding; a second
    call gives the same result from the file, makes no request and changes
    nothing. *)
Theorem get_ff_eneleast_downloads_once (content : string) (s : state) :
  requests_get L jff1_url = Returned content ->
  files s !! jff1_path L = None ->
  let s' := mkState (<[jff1_path L := content]> (files s))
                    (log s ++ [HttpGet jff1_url]) in
  get_ff_eneleast L s = (json_loads L content, s') /\
  get_ff_eneleast L s' = (json_loads L content, s').
Proof.
  intros Hget Hf s'. split.
  - unfold get_ff_eneleast, loadjson, http_get. py_run. rewrite Hf.
    rewrite bool_decide_eq_false_2 by (intros [? ?]; discriminate).
    py_run. rewrite Hget. py_run. rewrite lookup_insert_eq.
    by destruct (json_loads L content).
  - unfold get_ff_eneleast, loadjson, http_get, s'. py_run.
    rewrite lookup_insert_eq.
    rewrite bool_decide_eq_true_2 by eauto.
    py_run. rewrite lookup_insert_eq.
    by destruct (json_loads L content).
Qed.

(** *** The cached files of the catalog *)

(** What [datasets] returns is an entry of the catalog. *)
Lemma datasets_returned_entry (name u t : string) (s s' : state) :
  datasets L name s = (Returned (u, t), s') -> catalog !! name = Some (u, t).
Proof.
  destruct (decide (name ∈ catalog_names)) as [Hin | Hout].
  - unfold catalog_names in Hin.
    repeat (apply elem_of_cons in Hin as [-> | Hin];
            [first [ by intros [= <- <- _]
                   | intros Hrun;
                     destruct (datasets_stm_2d_raises L s) as [e He];
                     rewrite Hrun in He; discriminate ] | ]).
    by apply elem_of_nil in Hin.
  - unfold datasets, bind at 1.
    rewrite (datasets_chain_else L name s Hout). discriminate.
Qed.

Lemma NoDup_fmap_eq {A B : Type} (f : A -> B) (l : list A) (x y : A) :
  NoDup (f <$> l) -> x ∈ l -> y ∈ l -> f x = f y -> x = y.
Proof.
  induction l as [| a l IH]; intros Hnd Hx Hy Hf.
  { by apply elem_of_nil in Hx. }
  rewrite fmap_cons in Hnd. apply NoDup_cons in Hnd as [Ha Hnd].
  apply elem_of_cons in Hx as [-> | Hx];
    apply elem_of_cons in Hy as [-> | Hy].
  - reflexivity.
  - exfalso. apply Ha. rewrite Hf. by apply list_elem_of_fmap_2.
  - exfalso. apply Ha. rewrite <- Hf. by apply list_elem_of_fmap_2.
  - by apply IH.
Qed.

(** X27: no two dataset names share a cached file: when [datasets]
    returns the same file name for two names, the names are the same, and
    so are the URLs.  No cached file is [tmp.zip], which [data] removes, or
    [jff1.json], the file of [get_ff_eneleast]. *)
Theorem datasets_cached_files_distinct (n1 n2 u1 u2 t : string)
    (s1 s1' s2 s2' : state) :
  datasets L n1 s1 = (Returned (u1, t), s1') ->
  datasets L n2 s2 = (Returned (u2, t), s2') ->
  n1 = n2 /\ u1 = u2 /\ t <> "tmp.zip" /\ t <> "jff1.json".
Proof.
  intros H1 H2.
  apply datasets_returned_entry, catalog_lookup_elem in H1.
  apply datasets_returned_entry, catalog_lookup_elem in H2.
  assert (NoDup ((fun e => e.2.2) <$> catalog_entries)) as Hnd.
  { apply (bool_decide_unpack _). by vm_compute. }
  pose proof (NoDup_fmap_eq _ _ _ _ Hnd H1 H2 eq_refl) as [= -> ->].
  split; [reflexivity | ]. split; [reflexivity | ].
  assert (Forall (fun e => e.2.2 <> "tmp.zip" /\ e.2.2 <> "jff1.json")
                 catalog_entries) as Hall.
  { unfold catalog_entries. repeat constructor; discriminate. }
  rewrite Forall_forall in Hall. exact (Hall _ H2).
Qed.

End DataMore.

Section JidData.

Context (L : libs jvalue).

Lemma jid_loop_first (jid : string) (pre post : list jvalue) (i : jvalue) :
  Forall (fun j => exists v, subscript j "jid" = Returned v /\
                             eq_str v jid = false) pre ->
  subscript i "jid" = Returned (JStr jid) ->
  jid_loop jid (pre ++ i :: post) = Returned (Some i).
Proof.
  intros Hpre Hi. induction Hpre as [| j pre (v & Hv & Hne) _ IH].
  - cbn. rewrite Hi. cbn. by rewrite String.eqb_refl.
  - cbn. rewrite Hv. cbn. by rewrite Hne.
Qed.

Lemma jid_loop_none (jid : string) (l : list jvalue) :
  Forall (fun j => exists v, subscript j "jid" = Returned v /\
                             eq_str v jid = false) l ->
  jid_loop jid l = Returned None.
Proof.
  induction 1 as [| j l (v & Hv & Hne) _ IH]; [reflexivity | ].
  cbn. rewrite Hv. cbn. by rewrite Hne.
Qed.

Lemma jid_loop_missing_key (jid : string) (pre post : list jvalue)
    (members : list (string * jvalue)) :
  Forall (fun j => exists v, subscript j "jid" = Returned v /\
                             eq_str v jid = false) pre ->
  member "jid" members = None ->
  jid_loop jid (pre ++ JObj members :: post) = Raised (KeyError "jid").
Proof.
  intros Hpre Hm. induction Hpre as [| j pre (v & Hv & Hne) _ IH].
  - cbn. by rewrite Hm.
  - cbn. rewrite Hv. cbn. by rewrite Hne.
Qed.

(** X5: on a dataset that decodes to a list, [get_jid_data] returns the
    first entry whose "jid" is the one asked for, provided every entry
    before it has a "jid" that differs; entries after it are not looked
    at.  When every entry has a "jid" and none is the one asked for, it
    returns None; an entry without the key "jid" that the loop reaches
    raises KeyError. *)
Theorem get_jid_data_first_match (jid dataset : string) (s s' : state)
    (l : list jvalue) :
  data L dataset s = (Returned (JArr l), s') ->
  let differs j :=
    exists v, subscript j "jid" = Returned v /\ eq_str v jid = false in
  (forall (pre : list jvalue) i post,
     l = (pre ++ i :: post)%list -> Forall differs pre ->
     subscript i "jid" = Returned (JStr jid) ->
     get_jid_data L jid dataset s = (Returned (Some i), s')) /\
  (Forall differs l ->
   get_jid_data L jid dataset s = (Returned None, s')) /\
  (forall (pre : list jvalue) members post,
     l = (pre ++ JObj members :: post)%list -> Forall differs pre ->
     member "jid" members = None ->
     get_jid_data L jid dataset s = (Raised (KeyError "jid"), s')).
Proof.
  intros Hd differs.
  assert (forall r, jid_loop jid l = r ->
                    get_jid_data L jid dataset s = (r, s')) as Hrun.
  { intros r <-. unfold get_jid_data, bind at 1. rewrite Hd. by py_run. }
  split; [ | split].
  - intros pre i post -> Hpre Hi. apply Hrun. by apply jid_loop_first.
  - intros Hall. apply Hrun. by apply jid_loop_none.
  - intros pre members post -> Hpre Hm. apply Hrun.
    by apply jid_loop_missing_key.
Qed.

End JidData.

(** ** Matching an archive name *)

Lemma before_first_lacks (sep_tail jid rest : string) (c : ascii) :
  lacks c jid ->
  before_first (String c sep_tail) (jid ++ String c sep_tail ++ rest) = jid.
Proof.
  induction jid as [| d jid IH]; intros Hl.
  - change (before_first (String c sep_tail)
              (String c (sep_tail ++ rest)) = "").
    cbn [before_first String.prefix].
    destruct (ascii_dec c c) as [_ | Hne]; [ | done].
    assert (String.prefix sep_tail (sep_tail ++ rest) = true) as ->; [ | done].
    clear. induction sep_tail as [| a t IH]; [by destruct rest | ].
    change (String.prefix (String a t) (String a (t ++ rest)) = true).
    cbn [String.prefix]. by destruct (ascii_dec a a).
  - unfold lacks in Hl. cbn [count_char] in Hl.
    destruct (Ascii.eqb_spec c d) as [-> | Hcd]; [discriminate | ].
    change (before_first (String c sep_tail)
              (String d (jid ++ String c sep_tail ++ rest)) = String d jid).
    cbn [before_first String.prefix].
    destruct (ascii_dec c d) as [-> | _]; [done | ].
    by rewrite IH.
Qed.

Lemma prefix_split (sep s : string) :
  String.prefix sep s = true -> exists rest, s = sep ++ rest.
Proof.
  revert s. induction sep as [| a sep IH]; intros s Hp.
  { by exists s. }
  destruct s as [| b t]; [discriminate | ].
  cbn [String.prefix] in Hp.
  destruct (ascii_dec a b) as [<- | _]; [ | discriminate].
  destruct (IH t Hp) as [rest ->]. by exists rest.
Qed.

Lemma before_first_inv (sep s p : string) :
  before_first sep s = p -> s = p \/ exists rest, s = p ++ sep ++ rest.
Proof.
  revert p. induction s as [| c s IH]; intros p Hp.
  { left. by rewrite <- Hp. }
  cbn [before_first] in Hp.
  destruct (String.prefix sep (String c s)) eqn:Hpre.
  - right. subst p. apply prefix_split in Hpre as [rest ->]. by exists rest.
  - destruct p as [| d p]; [discriminate | ].
    injection Hp as <- Hp. destruct (IH p Hp) as [-> | [rest ->]].
    + by left.
    + right. by exists rest.
Qed.

(** X6: the fetchers take an index entry for the archive of [jid] exactly
    when its name is [jid] itself or [jid] followed by [.zip] and anything
    else, for an identifier without a dot: a longer identifier that starts
    with [jid] does not match. *)
Theorem archive_name_matches (jid name : string) :
  lacks "." jid ->
  before_first ".zip" name = jid <->
  (name = jid \/ exists rest, name = jid ++ ".zip" ++ rest).
Proof.
  intros Hl. split; [apply before_first_inv | ].
  intros [-> | [rest ->]].
  - clear -Hl. induction jid as [| d jid IH]; [reflexivity | ].
    unfold lacks in Hl. cbn [count_char] in Hl.
    destruct (Ascii.eqb_spec "." d) as [-> | Hcd]; [discriminate | ].
    cbn [before_first String.prefix].
    destruct (ascii_dec "." d) as [<- | _]; [done | ].
    by rewrite IH.
  - by apply (before_first_lacks "zip").
Qed.

Lemma archive_name_matches_witness :
  lacks "." "JVASP-1" /\
  before_first ".zip" "JVASP-1.zip" = "JVASP-1" /\
  before_first ".zip" "JVASP-10.zip" <> "JVASP-1".
Proof.
  assert (lacks "." "JVASP-1") as Hl by reflexivity.
  split; [exact Hl | ]. split.
  - apply (proj2 (archive_name_matches "JVASP-1" "JVASP-1.zip" Hl)).
    right. by exists "".
  - discriminate.
Defined.

(** ** The fetchers with matching entries *)

Section FetchersMore.

Context {json : Type} (L : libs json).
Context {wannier_ham efermi atoms : Type}.
Context (X : wann_libs wannier_ham efermi atoms).

(** The loop of [get_wann_electron] requests every matching archive and
    keeps what the last one gave. *)
Lemma electron_loop_last (jid : string) (l : list index_entry)
    (st : electron_locals) (s : state) :
  all_dicts l ->
  Forall (fun u => exists r, electron_fetch L X jid u = Returned r)
         (matching_urls jid l) ->
  exists st',
    for_each (electron_body L X jid) l st s =
      (Returned st', logs s (map HttpGet (matching_urls jid l))) /\
    match last (matching_urls jid l) with
    | None => st' = st
    | Some u =>
        exists r, electron_fetch L X jid u = Returned r /\
                  st' = assigned_from r
    end.
Proof.
  revert st s. induction l as [| i l IH]; intros st s Hd Hok.
  { exists st. by rewrite logs_nil. }
  apply Forall_cons in Hd as [Hi Hd].
  destruct i as [name download_url | ]; [ | congruence].
  cbn [matching_urls for_each electron_body] in *.
  destruct (String.eqb_spec (before_first ".zip" name) jid) as [Heq | Hne].
  - apply Forall_cons in Hok as [[r Hr] Hok].
    unfold electron_fetch in Hr.
    destruct (requests_get L download_url) as [content | e] eqn:Hget;
      [ | discriminate].
    cbn [rbind] in Hr.
    destruct (IH (assigned_from r) (logs s [HttpGet download_url]) Hd Hok)
      as (st' & Hrun & Hlast).
    exists st'. split.
    + unfold bind at 1. unfold http_get. py_run. rewrite Hget. py_run.
      rewrite Hr. py_run.
      unfold logs in Hrun. cbn [files log] in Hrun. unfold assigned_from in Hrun.
      rewrite Hrun. unfold logs. cbn. by rewrite <- app_assoc.
    + rewrite last_cons.
      destruct (last (matching_urls jid l)) as [u | ]; [exact Hlast | ].
      exists r. split; [ | exact Hlast].
      unfold electron_fetch. rewrite Hget. exact Hr.
  - unfold bind at 1. py_run. by apply IH.
Qed.

(** X7: [get_wann_electron] does not stop at a match.  On an index of
    dicts whose matching archives can all be read, it requests every
    matching archive, in the order of the list, and returns what the last
    one holds. *)
Theorem get_wann_electron_last_match (fls : raw_index) (jid u : string)
    (s : state) :
  all_dicts (WANN fls) ->
  Forall (fun u => exists r, electron_fetch L X jid u = Returned r)
         (matching_urls jid (WANN fls)) ->
  last (matching_urls jid (WANN fls)) = Some u ->
  exists r,
    electron_fetch L X jid u = Returned r /\
    get_wann_electron L X fls jid s =
      (Returned (Obj r.1.1, Obj r.1.2, r.2),
       logs s (map HttpGet (matching_urls jid (WANN fls)))).
Proof.
  intros Hd Hok Hlast.
  destruct (electron_loop_last jid (WANN fls)
              (mkElectron (Str "") (Str "") None) s Hd Hok)
    as (st' & Hrun & Hst).
  rewrite Hlast in Hst. destruct Hst as (r & Hr & ->).
  exists r. split; [exact Hr | ].
  unfold get_wann_electron, bind at 1. rewrite Hrun. reflexivity.
Qed.

(** X8: [get_wann_phonon] stops at the first match.  Entries that are no
    dict and dicts with another name are passed over; at the first dict
    that matches, the archive is requested and what it holds is returned,
    and nothing after it in the list is looked at. *)
Theorem get_wann_phonon_first_match (fls : raw_index)
    (jid name download_url content : string)
    (pre post : list index_entry) (r : wannier_ham * atoms) (s : state) :
  import_phonopy_outputs X = Returned tt ->
  FD_ELAST fls = (pre ++ Dict name download_url :: post)%list ->
  no_match jid pre ->
  before_first ".zip" name = jid ->
  requests_get L download_url = Returned content ->
  read_phonon_archive X content = Returned r ->
  get_wann_phonon L X fls jid s =
    (Returned (Some r), logs s [HttpGet download_url]).
Proof.
  intros Himp Hl Hpre Hname Hget Hread.
  unfold get_wann_phonon, bind at 1, lift at 1. rewrite Himp, Hl. clear Hl.
  induction pre as [| i pre IH].
  - cbn [app phonon_loop]. rewrite Hname, String.eqb_refl.
    unfold http_get. py_run. rewrite Hget. py_run. by rewrite Hread.
  - assert (no_match jid pre) as Hpre'.
    { intros n u Hin. apply (Hpre n u). apply elem_of_cons. by right. }
    destruct i as [n u | ]; cbn [app phonon_loop]; [ | by apply IH].
    destruct (String.eqb_spec (before_first ".zip" n) jid) as [Heq | _].
    + exfalso. apply (Hpre n u); [apply elem_of_cons; by left | exact Heq].
    + by apply IH.
Qed.

End FetchersMore.

Lemma data_unknown_name_witness :
  data examples.L0 "dft_4d" examples.s0 =
    (Raised (UnboundLocalError "url"),
     logs examples.s0 [Discard (ValueError ["Dataset doesnt exist"; "dft_4d"])]).
Proof.
  apply (data_unknown_name examples.L0 "dft_4d" examples.s0).
  intros Hin. unfold catalog_names in Hin.
  repeat (apply elem_of_cons in Hin as [Hin | Hin]; [discriminate | ]).
  by apply elem_of_nil in Hin.
Defined.

Lemma datasets_cached_files_distinct_witness :
  "dft_3d" = "dft_3d" /\
  "https://ndownloader.figshare.com/files/22471022"
  = "https://ndownloader.figshare.com/files/22471022" /\
  "jdft_3d-4-26-2020.json" <> "tmp.zip" /\
  "jdft_3d-4-26-2020.json" <> "jff1.json".
Proof.
  exact (datasets_cached_files_distinct examples.L0 "dft_3d" "dft_3d"
           "https://ndownloader.figshare.com/files/22471022"
           "https://ndownloader.figshare.com/files/22471022"
           "jdft_3d-4-26-2020.json" examples.s0 _ examples.s_cached _
           eq_refl eq_refl).
Defined.

Lemma data_second_call_is_cached_witness :
  exists msg,
    data examples.L1 "dft_3d" (data examples.L1 "dft_3d" examples.s0).2 =
      (Returned "[]",
       logs (data examples.L1 "dft_3d" examples.s0).2 [Printed msg]) /\
    http_free [Printed msg].
Proof.
  apply (data_second_call_is_cached examples.L1 "dft_3d"
           "https://ndownloader.figshare.com/files/22471022"
           "jdft_3d-4-26-2020.json" examples.s0
           (data examples.L1 "dft_3d" examples.s0).2 "[]" eq_refl).
  rewrite (surjective_pairing (data examples.L1 "dft_3d" examples.s0)) at 1.
  f_equal; vm_compute; reflexivity.
Defined.

Lemma data_bad_archive_leaves_tmp_zip_witness :
  exists msg,
    data examples.L_bad "dft_3d" examples.s0 =
      (Raised (External "zipfile.BadZipFile"),
       mkState (<["/site/jarvis/db/tmp.zip" := "<html>"]> ∅)
               [Printed msg;
                HttpGet "https://ndownloader.figshare.com/files/22471022"]).
Proof.
  exact (data_bad_archive_leaves_tmp_zip examples.L_bad "dft_3d"
           "https://ndownloader.figshare.com/files/22471022"
           "jdft_3d-4-26-2020.json" "<html>" (External "zipfile.BadZipFile")
           examples.s0 eq_refl eq_refl eq_refl eq_refl).
Defined.

Lemma get_ff_eneleast_downloads_once_witness :
  let s' := mkState (<["/site/jarvis/db/jff1.json" := "zip bytes"]> ∅)
                    [HttpGet jff1_url] in
  get_ff_eneleast examples.L1 examples.s0 = (Returned "zip bytes", s') /\
  get_ff_eneleast examples.L1 s' = (Returned "zip bytes", s').
Proof.
  exact (get_ff_eneleast_downloads_once examples.L1 "zip bytes" examples.s0
           eq_refl eq_refl).
Defined.

Lemma get_jid_data_first_match_witness :
  exists s',
    get_jid_data examples.L_jid "JVASP-2" "dft_3d" examples.s_cached =
      (Returned
         (Some (JObj [("jid", JStr "JVASP-2"); ("formula", JStr "Ge")])),
       s') /\
    get_jid_data examples.L_jid "JVASP-3" "dft_3d" examples.s_cached =
      (Raised (KeyError "jid"), s').
Proof.
  destruct (data_cached examples.L_jid "dft_3d"
              "https://ndownloader.figshare.com/files/22471022"
              "jdft_3d-4-26-2020.json" "[1]" examples.s_cached
              eq_refl eq_refl) as [msg E].
  exists (logs examples.s_cached [Printed msg]).
  split.
  - refine (proj1 (get_jid_data_first_match examples.L_jid "JVASP-2" "dft_3d"
                     examples.s_cached _ examples.jid_docs E)
              [JObj [("jid", JStr "JVASP-1"); ("formula", JStr "Si")]]
              _ [JObj [("formula", JStr "C")]] eq_refl _ eq_refl).
    repeat constructor. by eexists.
  - refine (proj2 (proj2 (get_jid_data_first_match examples.L_jid "JVASP-3"
                            "dft_3d" examples.s_cached _ examples.jid_docs E))
              [JObj [("jid", JStr "JVASP-1"); ("formula", JStr "Si")];
               JObj [("jid", JStr "JVASP-2"); ("formula", JStr "Ge")]]
              [("formula", JStr "C")] [] eq_refl _ eq_refl).
    repeat constructor; by eexists.
Defined.

Lemma get_wann_electron_last_match_witness :
  exists r,
    electron_fetch examples.L0 examples.X0 "JVASP-1"
                   "https://ndownloader.figshare.com/files/1b" = Returned r /\
    get_wann_electron examples.L0 examples.X0 examples.fls2 "JVASP-1"
                      examples.s0 =
      (Returned (Obj r.1.1, Obj r.1.2, r.2),
       logs examples.s0
            [HttpGet "https://ndownloader.figshare.com/files/1";
             HttpGet "https://ndownloader.figshare.com/files/1b"]).
Proof.
  apply (get_wann_electron_last_match examples.L0 examples.X0 examples.fls2
           "JVASP-1" "https://ndownloader.figshare.com/files/1b" examples.s0).
  - repeat constructor; discriminate.
  - repeat constructor; by eexists.
  - reflexivity.
Defined.

Lemma get_wann_phonon_first_match_witness :
  get_wann_phonon examples.L0 examples.X0 examples.fls0 "JVASP-2" examples.s0 =
    (Returned (Some (tt, tt)),
     logs examples.s0 [HttpGet "https://ndownloader.figshare.com/files/2"]).
Proof.
  apply (get_wann_phonon_first_match examples.L0 examples.X0 examples.fls0
           "JVASP-2" "JVASP-2.zip" "https://ndownloader.figshare.com/files/2"
           "bytes" [NotADict] [] (tt, tt) examples.s0);
    try reflexivity.
  intros n u Hin. apply elem_of_cons in Hin as [Hin | Hin]; [discriminate | ].
  by apply elem_of_nil in Hin.
Defined.

End figshare_more_proofs.

(** * Further properties of the tight-binding evaluator *)

Module tight_binding_more_proofs.

Import figshare tight_binding_proofs.

Section Shapes.

Context {F : Type} `{Arith F} `{Trig F}.

Local Abbreviation complex := (complex F).

Lemma square_mat_of (n : nat) (f : nat -> nat -> complex) :
  square n (mat_of n f).
Proof.
  unfold square, mat_of. split; [by rewrite length_map, length_seq | ].
  apply Forall_forall. intros row Hrow.
  apply list_elem_of_fmap in Hrow as (i & -> & _).
  by rewrite length_map, length_seq.
Qed.

Lemma symmetrize_square (n : nat) (m : list (list complex)) :
  square n m -> square n (symmetrize m).
Proof.
  intros Hsq. rewrite (square_as_mat_of n m Hsq), symmetrize_mat_of.
  apply square_mat_of.
Qed.

Lemma accumulated_length (k : list F) (w : WannierHam F) :
  Forall (fun h => length h = nwan w ^ 2) (HR w) ->
  length
    (fold_left vec_add
       (zip_with (fun e h => map (Cmul e) h)
          (map exp_2pi_j (map np_sum (map (zip_with fmul k) (R w))))
          (HR w))
       (replicate (nwan w ^ 2) C0))
  = nwan w * nwan w.
Proof.
  intros Hrows.
  rewrite length_fold_vec_add; rewrite length_replicate; [cbn; lia | ].
  apply Forall_forall. intros t Ht.
  apply elem_of_lookup_zip_with in Ht as (i & e & h & -> & _ & Hlook).
  rewrite length_map. rewrite Forall_lookup in Hrows. by apply (Hrows i).
Qed.

(** X9: on arguments of the right shapes the matrix that [get_hk_tb]
    returns has [nwan] rows of [nwan] entries. *)
Theorem get_hk_tb_shape (k : list F) (w : WannierHam F) :
  shapes_ok k w ->
  exists hk,
    get_hk_tb k w = Returned hk /\
    length hk = nwan w /\
    Forall (fun row => length row = nwan w) hk.
Proof.
  intros Hs. rewrite (get_hk_tb_runs k w Hs). eexists.
  split; [reflexivity | ].
  destruct Hs as (_ & _ & _ & Hrows).
  apply (symmetrize_square (nwan w)), reshape_shape.
  by apply accumulated_length.
Qed.

Lemma accumulate_app (E : list complex) (hr : list (list complex))
    (a b : list nat) (temp : list complex) :
  accumulate E hr (a ++ b) temp =
    let? t := accumulate E hr a temp in accumulate E hr b t.
Proof.
  revert temp. induction a as [| i a IH]; intros temp; [reflexivity | ].
  cbn [app accumulate].
  destruct (E !! i) as [e | ]; [ | reflexivity].
  destruct (hr !! i) as [row | ]; [ | reflexivity].
  destruct (add_scaled temp e row) as [t | err]; [ | reflexivity].
  cbn [rbind]. apply IH.
Qed.

(** X10: when [w.HR] has fewer rows than [w.R] (all of the right length),
    the loop runs past the end of [w.HR] and [get_hk_tb] raises
    IndexError. *)
Theorem get_hk_tb_short_HR (k : list F) (w : WannierHam F) :
  length k = 3 ->
  Forall (fun r => length r = 3) (R w) ->
  length (HR w) < length (R w) ->
  Forall (fun h => length h = nwan w ^ 2) (HR w) ->
  get_hk_tb k w = Raised IndexError.
Proof.
  intros Hk HR3 Hlen Hrows. unfold get_hk_tb.
  rewrite mul_arrays_tile.
  2:{ eapply Forall_impl; [exact HR3 | ]. cbn. intros r ->. by rewrite Hk. }
  cbn [rbind].
  replace (seq 0 (length (R w)))
    with (seq 0 (length (HR w))
            ++ seq (length (HR w)) (length (R w) - length (HR w)))%list
    by (rewrite <- (seq_app (length (HR w))); f_equal; lia).
  rewrite accumulate_app, accumulate_seq.
  - cbn [rbind].
    destruct (length (R w) - length (HR w)) as [| d] eqn:Hd; [lia | ].
    cbn [seq accumulate plus].
    rewrite (lookup_ge_None_2 (HR w)) by lia.
    by destruct (_ !! length (HR w)).
  - rewrite !length_map. lia.
  - lia.
  - by rewrite length_replicate.
Qed.

(** X11: rows of [w.HR] beyond the number of lattice vectors are never
    read: [get_hk_tb] returns the same with them and without them. *)
Theorem get_hk_tb_ignores_extra_rows (k : list F) (w : WannierHam F) :
  length k = 3 ->
  Forall (fun r => length r = 3) (R w) ->
  length (R w) <= length (HR w) ->
  Forall (fun h => length h = nwan w ^ 2) (HR w) ->
  get_hk_tb k w = get_hk_tb k (with_HR w (take (length (R w)) (HR w))).
Proof.
  intros Hk HR3 Hlen Hrows.
  rewrite (get_hk_tb_runs k (with_HR w (take (length (R w)) (HR w)))).
  2:{ repeat split; cbn; [exact Hk | exact HR3 | rewrite length_take; lia | ].
      by apply Forall_take. }
  unfold get_hk_tb. rewrite mul_arrays_tile.
  2:{ eapply Forall_impl; [exact HR3 | ]. cbn. intros r ->. by rewrite Hk. }
  cbn [rbind]. rewrite accumulate_seq.
  - cbn [rbind with_HR nwan R HR]. rewrite drop_0, drop_0.
    by rewrite firstn_all2 by (rewrite !length_map; lia).
  - rewrite !length_map. lia.
  - lia.
  - by rewrite length_replicate.
Qed.

End Shapes.

Lemma get_hk_tb_shape_witness :
  exists hk,
    get_hk_tb examples.k0 examples.w0 = Returned hk /\
    length hk = 2 /\
    Forall (fun row => length row = 2) hk.
Proof.
  exact (get_hk_tb_shape examples.k0 examples.w0 shapes_ok_k0_w0).
Defined.

Lemma get_hk_tb_short_HR_witness :
  get_hk_tb examples.k0 examples.w_short = Raised IndexError.
Proof.
  apply (get_hk_tb_short_HR examples.k0 examples.w_short);
    [reflexivity | repeat constructor | cbn; lia | repeat constructor].
Defined.

Lemma get_hk_tb_ignores_extra_rows_witness :
  get_hk_tb examples.k0 examples.w_long = get_hk_tb examples.k0 examples.w0.
Proof.
  exact (get_hk_tb_ignores_extra_rows examples.k0 examples.w_long
           eq_refl
           ltac:(repeat constructor) ltac:(cbn; lia)
           ltac:(repeat constructor)).
Defined.

(** ** Exact arithmetic over the real numbers *)

Section OverReals.

Local Abbreviation Rt := Rdefinitions.R.

Lemma Cmul_one (z : complex Rt) : Cmul (1, 0)%R z = z.
Proof. destruct z as [a b]. unfold Cmul. cbn. f_equal; ring. Qed.

Lemma zip_with_unit_phase (rows : list (list Rt))
    (hr : list (list (complex Rt))) :
  length hr = length rows ->
  zip_with (fun e h => map (Cmul e) h) (map (fun _ => (1, 0)%R) rows) hr = hr.
Proof.
  revert hr. induction rows as [| r rows IH]; intros [| h hr] Hlen;
    try discriminate; [reflexivity | ].
  cbn. rewrite IH by (cbn in Hlen; lia). f_equal.
  rewrite <- (map_id h) at 2. apply map_ext. apply Cmul_one.
Qed.

(** X13: over the real numbers, at the zone centre [k = (0, 0, 0)] every
    phase is 1 and [get_hk_tb] returns the symmetrization of the plain sum
    of the rows of [w.HR]. *)
Theorem get_hk_tb_zone_centre (w : WannierHam Rt) :
  shapes_ok [0; 0; 0]%R w ->
  get_hk_tb [0; 0; 0]%R w =
    Returned
      (symmetrize
         (reshape (nwan w) (nwan w)
            (fold_left vec_add (HR w) (replicate (nwan w ^ 2) C0)))).
Proof.
  intros Hs. rewrite (get_hk_tb_runs _ w Hs).
  destruct Hs as (_ & HR3 & Hlen & _). do 4 f_equal.
  etransitivity; [ | exact (zip_with_unit_phase (R w) (HR w) Hlen)].
  f_equal. rewrite !map_map. apply map_ext_in. intros r Hr.
  rewrite List.Forall_forall in HR3. specialize (HR3 r Hr).
  destruct r as [| r1 [| r2 [| r3 [| ? ?]]]]; try discriminate.
  rewrite exp_2pi_j_real. cbn.
  replace (2 * PI * (0 + 0 * r1 + 0 * r2 + 0 * r3))%R with 0%R by ring.
  by rewrite cos_0, sin_0.
Qed.

(** X14: over the real numbers the diagonal of the matrix that
    [get_hk_tb] returns is real. *)
Theorem get_hk_tb_real_diagonal (k : list Rt) (w : WannierHam Rt) :
  shapes_ok k w ->
  exists hk,
    get_hk_tb k w = Returned hk /\
    forall i, i < nwan w -> snd (entry hk i i) = 0%R.
Proof.
  intros Hs. rewrite (get_hk_tb_runs k w Hs). eexists.
  split; [reflexivity | ]. intros i Hi.
  destruct Hs as (_ & _ & _ & Hrows).
  match goal with
  | |- context [symmetrize ?m] =>
      assert (square (nwan w) m) as Hsq
        by (apply reshape_shape; by apply accumulated_length);
      rewrite (square_as_mat_of (nwan w) m Hsq)
  end.
  rewrite symmetrize_mat_of. unfold entry, mat_of.
  rewrite (nth_map_seq _ (nwan w) i []) by exact Hi.
  rewrite (nth_map_seq _ (nwan w) i C0) by exact Hi.
  unfold Cdiv_real, Cadd, Cconj. cbn. field.
Qed.

End OverReals.

Lemma get_hk_tb_zone_centre_witness :
  get_hk_tb [0; 0; 0]%R examples.w0 =
    Returned
      (symmetrize
         (reshape 2 2
            (fold_left vec_add (HR examples.w0) (replicate 4 C0)))).
Proof.
  exact (get_hk_tb_zone_centre examples.w0
           ltac:(repeat split; repeat constructor)).
Defined.

Lemma get_hk_tb_real_diagonal_witness :
  exists hk,
    get_hk_tb examples.k0 examples.w0 = Returned hk /\
    forall i, i < 2 -> snd (entry hk i i) = 0%R.
Proof.
  exact (get_hk_tb_real_diagonal examples.k0 examples.w0 shapes_ok_k0_w0).
Defined.

End tight_binding_more_proofs.

(** * Further properties of jarvis/io/phono3py/inputs.py *)

Module inputs_more_proofs.

Import phono3py_inputs inputs_proofs.

(** ** The dilated and the constricted POSCAR, when things go wrong *)

Section QuasiharmonicMore.

Context {F : Type} `{Arith F} (T : float_text F).

(** Every way [prepare_gruneisen_quasiharmonic] can end on a disk that
    takes every write: each failure comes before the first file is opened
    for writing. *)
Lemma gruneisen_outcome (orig_poscar : string) (scale : F) (s : state) :
  (files s !! orig_poscar = None /\
   prepare_gruneisen_quasiharmonic T orig_poscar scale s =
     (Raised (FileNotFoundError orig_poscar), s)) \/
  (exists text, files s !! orig_poscar = Some text /\
     ((splitlines text !! 1 = None /\
       prepare_gruneisen_quasiharmonic T orig_poscar scale s =
         (Raised IndexError, s)) \/
      (exists l1, splitlines text !! 1 = Some l1 /\
         ((exists e, parse_float T l1 = Raised e /\
             prepare_gruneisen_quasiharmonic T orig_poscar scale s =
               (Raised e, s)) \/
          (exists x, parse_float T l1 = Returned x /\
             ((feqb scale f0 = true /\
               prepare_gruneisen_quasiharmonic T orig_poscar scale s =
                 (Raised ZeroDivisionError, s)) \/
              (feqb scale f0 = false /\
               exists plus minus,
                 prepare_gruneisen_quasiharmonic T orig_poscar scale s =
                   (Returned tt, written s plus minus)))))))).
Proof.
  destruct (files s !! orig_poscar) as [text | ] eqn:Hf.
  2:{ left. split; [reflexivity | ].
      unfold prepare_gruneisen_quasiharmonic, bind at 1, read_file at 1.
      by rewrite Hf. }
  right. exists text. split; [reflexivity | ].
  destruct (splitlines text !! 1) as [l1 | ] eqn:Hl.
  2:{ left. split; [reflexivity | ].
      unfold prepare_gruneisen_quasiharmonic, getitem, bind at 1,
        read_file at 1.
      rewrite Hf, Hl. reflexivity. }
  right. exists l1. split; [reflexivity | ].
  destruct (parse_float T l1) as [x | e] eqn:Hp.
  2:{ left. exists e. split; [reflexivity | ].
      unfold prepare_gruneisen_quasiharmonic, getitem, bind at 1,
        read_file at 1.
      rewrite Hf, Hl. py_unfold. cbn beta iota. by rewrite Hp. }
  right. exists x. split; [reflexivity | ].
  destruct (feqb scale f0) eqn:Hz.
  - left. split; [reflexivity | ].
    unfold prepare_gruneisen_quasiharmonic, getitem, bind at 1,
      read_file at 1.
    rewrite Hf, Hl. py_unfold. cbn beta iota. rewrite Hp. cbn beta iota.
    unfold py_truediv. by rewrite Hz.
  - right. split; [reflexivity | ]. do 2 eexists.
    by apply (gruneisen_run T orig_poscar text l1 x scale s).
Qed.

(** X15: the failures of [prepare_gruneisen_quasiharmonic] that come
    before the first file is opened for writing leave the disk and the log
    as they were: FileNotFoundError for a missing original, IndexError for
    an original of fewer than two lines, what [float] raises on the second
    line, and ZeroDivisionError for a scale of zero. *)
Theorem gruneisen_early_failures_write_nothing (orig_poscar : string)
    (scale : F) (s : state) :
  (files s !! orig_poscar = None ->
   prepare_gruneisen_quasiharmonic T orig_poscar scale s =
     (Raised (FileNotFoundError orig_poscar), s)) /\
  (forall text,
     files s !! orig_poscar = Some text ->
     (splitlines text !! 1 = None ->
      prepare_gruneisen_quasiharmonic T orig_poscar scale s =
        (Raised IndexError, s)) /\
     (forall l1,
        splitlines text !! 1 = Some l1 ->
        (forall e,
           parse_float T l1 = Raised e ->
           prepare_gruneisen_quasiharmonic T orig_poscar scale s =
             (Raised e, s)) /\
        (forall x,
           parse_float T l1 = Returned x -> feqb scale f0 = true ->
           prepare_gruneisen_quasiharmonic T orig_poscar scale s =
             (Raised ZeroDivisionError, s)))).
Proof.
  destruct (gruneisen_outcome orig_poscar scale s)
    as [[Hf E] | (text & Hf & [[Hl E] | (l1 & Hl &
         [(e' & Hp & E) | (x & Hp & [[Hz E] | (Hz & plus & minus & E)])])])];
    (split; [intros Hf' | intros text' Hf'; split;
       [intros Hl' | intros l1' Hl'; split;
          [intros e Hp' | intros x' Hp' Hz']]]);
    congruence.
Qed.

(** X16: whatever the outcome, [prepare_gruneisen_quasiharmonic] changes
    no file other than POSCAR-plus and POSCAR-minus, and prints nothing. *)
Theorem gruneisen_touches_two_files (orig_poscar p : string) (scale : F)
    (s : state) :
  p <> "POSCAR-plus" -> p <> "POSCAR-minus" ->
  let s' := (prepare_gruneisen_quasiharmonic T orig_poscar scale s).2 in
  files s' !! p = files s !! p /\ log s' = log s.
Proof.
  intros Hplus Hminus.
  destruct (gruneisen_outcome orig_poscar scale s)
    as [[Hf E] | (text & Hf & [[Hl E] | (l1 & Hl &
         [(e' & Hp & E) | (x & Hp & [[Hz E] | (Hz & plus & minus & E)])])])];
    rewrite E; cbn [snd]; try by split.
  unfold written. cbn [files log]. split; [ | reflexivity].
  by rewrite !lookup_insert_ne by congruence.
Qed.

(** ** The final newline *)

Lemma no_linebreak_inv (c : ascii) (x : string) :
  no_linebreak (String c x) -> is_linebreak c = false /\ no_linebreak x.
Proof.
  unfold no_linebreak. cbn [list_ascii_of_string forallb].
  intros Hx. apply andb_prop in Hx as [Hc Hx].
  split; [by apply negb_true_iff | exact Hx].
Qed.

Lemma splitlines_line_bounded (n : nat) (x rest : string) :
  String.length x <= n -> no_linebreak x ->
  splitlines (x ++ nl ++ rest) = x :: splitlines rest.
Proof.
  revert x. induction n as [| n IH]; intros x Hn Hx.
  - destruct x; [ | cbn in Hn; lia].
    change (splitlines (String nl_char rest) = "" :: splitlines rest).
    cbn [splitlines].
    replace (is_linebreak nl_char) with true by (by vm_compute).
    by destruct rest.
  - destruct x as [| c x].
    { change (splitlines (String nl_char rest) = "" :: splitlines rest).
      cbn [splitlines].
      replace (is_linebreak nl_char) with true by (by vm_compute).
      by destruct rest. }
    apply no_linebreak_inv in Hx as [Hc Hx].
    change (splitlines (String c (x ++ nl ++ rest))
            = String c x :: splitlines rest).
    cbn [splitlines]. rewrite Hc.
    rewrite (IH x) by (cbn in Hn; lia || exact Hx). reflexivity.
Qed.

(** Lines joined by newlines, with a newline behind the last one, are
    what [splitlines] gives back. *)
Lemma splitlines_join (ls : list string) :
  ls <> [] -> Forall no_linebreak ls ->
  splitlines (py_join nl ls ++ nl) = ls.
Proof.
  induction ls as [| x ls IH]; intros Hne Hall; [done | ].
  apply Forall_cons in Hall as [Hx Hls].
  destruct ls as [| y ls].
  - change (splitlines (x ++ nl ++ "") = [x]).
    by rewrite (splitlines_line_bounded (String.length x)).
  - change (splitlines ((x ++ nl ++ py_join nl (y :: ls)) ++ nl)
            = x :: y :: ls).
    rewrite !append_assoc.
    rewrite (splitlines_line_bounded (String.length x)) by (lia || exact Hx).
    by rewrite IH.
Qed.

(** X17: the final newline of the original is lost.  For an original that
    consists of lines each ended by a newline, the two files written are
    the lines, the second one replaced, joined by newlines: nothing comes
    behind the last line. *)
Theorem gruneisen_drops_final_newline (orig_poscar l1 : string)
    (ls : list string) (x scale : F) (s : state) :
  files s !! orig_poscar = Some (py_join nl ls ++ nl) ->
  Forall no_linebreak ls ->
  ls !! 1 = Some l1 ->
  parse_float T l1 = Returned x ->
  feqb scale f0 = false ->
  prepare_gruneisen_quasiharmonic T orig_poscar scale s =
    (Returned tt,
     written s
       (py_join nl (<[1 := str_float T (fmul x scale)]> ls))
       (py_join nl (<[1 := str_float T (fdiv x scale)]> ls))).
Proof.
  intros Hf Hall Hl Hp Hz.
  assert (splitlines (py_join nl ls ++ nl) = ls) as Hsplit.
  { apply splitlines_join; [ | exact Hall]. by destruct ls. }
  rewrite (gruneisen_run T orig_poscar (py_join nl ls ++ nl) l1 x scale s Hf);
    rewrite ?Hsplit; done.
Qed.

End QuasiharmonicMore.

Lemma gruneisen_touches_two_files_witness :
  let s' := (prepare_gruneisen_quasiharmonic examples.T0 "POSCAR-unitcell"
               2%Q examples.s_poscar).2 in
  files s' !! "POSCAR-unitcell" = files examples.s_poscar !! "POSCAR-unitcell"
  /\ log s' = log examples.s_poscar.
Proof.
  apply (gruneisen_touches_two_files examples.T0 "POSCAR-unitcell"
           "POSCAR-unitcell" 2%Q examples.s_poscar); discriminate.
Defined.

Lemma gruneisen_drops_final_newline_witness :
  prepare_gruneisen_quasiharmonic examples.T0 "POSCAR-unitcell" 2%Q
                                  examples.s_poscar =
    (Returned tt,
     written examples.s_poscar
       (py_join nl ["Si2"; "10.86"; "0.0 0.5 0.5"; "0.5 0.0 0.5"])
       (py_join nl ["Si2"; "2.715"; "0.0 0.5 0.5"; "0.5 0.0 0.5"])).
Proof.
  exact (gruneisen_drops_final_newline examples.T0 "POSCAR-unitcell" "5.43"
           examples.poscar_lines (543 # 100)%Q 2%Q examples.s_poscar
           eq_refl ltac:(repeat constructor) eq_refl eq_refl eq_refl).
Defined.

(** ** The command of prepare_gruneisen_FC3 *)

Section FC3.

Context {F : Type} (T : float_text F).

(** The text of a k-path whose points all have three components: the
    loop does not fail, and adds no double quote when the text of a number
    holds none. *)
Lemma band_lines_quotes (all_kp : list (list F)) (acc : string) :
  Forall (fun k => 3 <= length k) all_kp ->
  (forall x, quotes (str_float T x) = 0) ->
  exists all_lines,
    band_lines T acc all_kp = Returned all_lines /\
    quotes all_lines = quotes acc.
Proof.
  intros Hall Hstr. revert acc.
  induction Hall as [| k all_kp Hk _ IH]; intros acc.
  { by exists acc. }
  destruct k as [| k0 [| k1 [| k2 k]]]; cbn in Hk; try lia.
  cbn [band_lines component lookup list_lookup rbind].
  destruct (IH (acc ++ str_float T k0 ++ " " ++ str_float T k1 ++ " "
                ++ str_float T k2 ++ "  ")) as (all_lines & E & Hq).
  exists all_lines. split; [exact E | ].
  rewrite Hq, !quotes_app, !Hstr. cbn. lia.
Qed.

(** A k-point of fewer than three components stops the loop. *)
Lemma band_lines_short (pre post : list (list F)) (k : list F)
    (acc : string) :
  Forall (fun k => 3 <= length k) pre -> length k < 3 ->
  band_lines T acc (pre ++ k :: post) = Raised IndexError.
Proof.
  intros Hpre Hk. revert acc.
  induction Hpre as [| p pre Hp _ IH]; intros acc.
  - destruct k as [| k0 [| k1 [| k2 k]]]; cbn in Hk; try lia; reflexivity.
  - destruct p as [| p0 [| p1 [| p2 p]]]; cbn in Hp; try lia.
    cbn [app band_lines component lookup list_lookup rbind]. apply IH.
Qed.

(** X18: without [band_calc], [prepare_gruneisen_FC3] prints one command
    and, with [run], executes that same command; the command has four
    double quotes besides those of [poscar], and it is the same whatever
    the disk holds, the k-path library does and [line_density] is: the
    POSCAR is not opened. *)
Theorem FC3_mesh_command (obj : phonopy_obj) (poscar : string)
    (mesh : list Z) (nac : bool) :
  exists cmd,
    quotes cmd = 4 + quotes poscar /\
    forall (K : kpath_lib F) (line_density : Z) (run : bool) (s : state),
      prepare_gruneisen_FC3 T K obj poscar false line_density mesh nac run s
      = (Returned tt, logs s (printed_and_run cmd run)).
Proof.
  eexists. split.
  2:{ intros K line_density run s. unfold prepare_gruneisen_FC3.
      do 2 py_unfold. cbn beta iota. unfold logs, printed_and_run.
      destruct run; cbn [files log]; [ | reflexivity].
      by rewrite <- app_assoc. }
  destruct nac; rewrite !quotes_app, !quotes_join_ints; cbn; lia.
Qed.

(** X19: with [band_calc], on a k-path whose points all have three
    components, [prepare_gruneisen_FC3] prints one command and, with
    [run], executes that same command.  [mesh] plays no part in it, and
    when the text of a number holds no double quote the command has four
    double quotes besides those of [poscar]. *)
Theorem FC3_band_command (K : kpath_lib F) (obj : phonopy_obj)
    (poscar : string) (line_density : Z) (nac : bool) (s : state)
    (all_kp : list (list F)) :
  kpath_kpoints K (files s) poscar line_density = Returned all_kp ->
  Forall (fun k => 3 <= length k) all_kp ->
  (forall x, quotes (str_float T x) = 0) ->
  exists cmd,
    quotes cmd = 4 + quotes poscar /\
    forall (mesh : list Z) (run : bool),
      prepare_gruneisen_FC3 T K obj poscar true line_density mesh nac run s
      = (Returned tt, logs s (printed_and_run cmd run)).
Proof.
  intros HK Hall Hstr.
  destruct (band_lines_quotes all_kp "" Hall Hstr) as (all_lines & E & Hq).
  eexists. split.
  2:{ intros mesh run. unfold prepare_gruneisen_FC3.
      unfold bind at 1. unfold bind at 1. rewrite HK.
      unfold bind at 1, lift at 1. rewrite E.
      do 2 py_unfold. cbn beta iota. unfold logs, printed_and_run.
      destruct run; cbn [files log]; [ | reflexivity].
      by rewrite <- app_assoc. }
  destruct nac; rewrite !quotes_app, !quotes_join_ints, Hq; cbn; lia.
Qed.

(** X20: a call of [prepare_gruneisen_FC3] that raises was a band
    calculation, and it has printed and executed nothing.  It raises what
    the k-path library raises, and IndexError at a k-point of fewer than
    three components. *)
Theorem FC3_failure_runs_nothing (K : kpath_lib F) (obj : phonopy_obj)
    (poscar : string) (band_calc : bool) (line_density : Z) (mesh : list Z)
    (nac run : bool) (s s' : state) (e : exn) :
  prepare_gruneisen_FC3 T K obj poscar band_calc line_density mesh nac run s
  = (Raised e, s') ->
  s' = s /\ band_calc = true /\
  (kpath_kpoints K (files s) poscar line_density = Raised e \/
   exists all_kp,
     kpath_kpoints K (files s) poscar line_density = Returned all_kp /\
     band_lines T "" all_kp = Raised e).
Proof.
  unfold prepare_gruneisen_FC3. destruct band_calc.
  - unfold bind at 1. unfold bind at 1.
    destruct (kpath_kpoints K (files s) poscar line_density)
      as [all_kp | e'] eqn:HK.
    + unfold bind at 1, lift at 1.
      destruct (band_lines T "" all_kp) as [all_lines | e'] eqn:E.
      * do 2 py_unfold. cbn beta iota. destruct run; discriminate.
      * intros Hrun. injection Hrun as <- <-.
        split; [reflexivity | ]. split; [reflexivity | ].
        right. by exists all_kp.
    + intros Hrun. injection Hrun as <- <-.
      split; [reflexivity | ]. split; [reflexivity | ]. by left.
  - do 2 py_unfold. cbn beta iota. destruct run; discriminate.
Qed.

End FC3.

Lemma FC3_band_command_witness :
  exists cmd,
    quotes cmd = 4 + quotes "POSCAR-unitcell" /\
    forall (mesh : list Z) (run : bool),
      prepare_gruneisen_FC3 examples.T0 examples.K_gamma_x examples.obj0
        "POSCAR-unitcell" true 1 mesh false run examples.s_poscar
      = (Returned tt, logs examples.s_poscar (printed_and_run cmd run)).
Proof.
  apply (FC3_band_command examples.T0 examples.K_gamma_x examples.obj0
           "POSCAR-unitcell" 1 false examples.s_poscar
           [[0; 0; 0]; [543 # 200; 0; 0]]%Q eq_refl).
  - repeat constructor.
  - intros x. cbn. by repeat destruct (Qeq_bool _ _).
Defined.

Lemma FC3_failure_runs_nothing_witness :
  examples.s_poscar = examples.s_poscar /\ true = true /\
  (kpath_kpoints examples.K_short (files examples.s_poscar)
     "POSCAR-unitcell" 1 = Raised IndexError \/
   exists all_kp,
     kpath_kpoints examples.K_short (files examples.s_poscar)
       "POSCAR-unitcell" 1 = Returned all_kp /\
     band_lines examples.T0 "" all_kp = Raised IndexError).
Proof.
  exact (FC3_failure_runs_nothing examples.T0 examples.K_short examples.obj0
           "POSCAR-unitcell" true 1 [1; 1; 1]%Z false true
           examples.s_poscar examples.s_poscar IndexError eq_refl).
Defined.

End inputs_more_proofs.

(** * Further properties of jarvis/io/phono3py/outputs.py *)

Module outputs_more_proofs.

Import phono3py_outputs outputs_proofs.

(** ** A Kappa object made without temperatures *)

Section KappaMore.

Context {F : Type} `{Arith F}.

Lemma to_list_scalars (temps : list F) :
  to_list (Array (map Scalar temps)) = Returned temps.
Proof.
  unfold to_list. induction temps as [| t temps IH]; [reflexivity | ].
  cbn [map rmap rbind]. by rewrite IH.
Qed.

(** X23: made with [temperatures] left out or empty, a Kappa object takes
    its temperatures from the file, and when the file holds a row of kappa
    for each of them, [kappa(T)] finds the row of every such temperature:
    it returns that row for the format "tensor" and reads its first entry
    for "scalar_xx". *)
Theorem Kappa_default_temperatures (f : gmap string (ndarray F))
    (given : option (list F)) (temps : list F) (qs rows : list (ndarray F))
    (fmt : string) :
  given = None \/ given = Some [] ->
  f !! "temperature" = Some (Array (map Scalar temps)) ->
  f !! "qpoint" = Some (Array qs) ->
  f !! "kappa" = Some (Array rows) ->
  length temps <= length rows ->
  exists self,
    Kappa_init f given fmt = Returned self /\
    temperatures self = temps /\
    forall T, py_in T temps = true ->
      exists i row,
        py_index T temps = Returned i /\ rows !! i = Some row /\
        (fmt = "tensor" -> kappa self T = Returned (Some row)) /\
        (fmt = "scalar_xx" ->
         kappa self T = let? x := item row 0 in Returned (Some x)).
Proof.
  intros Hgiven Ht Hq Hk Hlen.
  exists (mkKappa f temps fmt). split; [ | split; [reflexivity | ]].
  - unfold Kappa_init, dict_get.
    destruct Hgiven as [-> | ->]; rewrite Ht, Hq; cbn [rbind];
      by rewrite to_list_scalars.
  - intros T Hin.
    destruct (py_index_of_member T temps Hin) as (i & y & Hi & Hy & _).
    assert (i < length rows) as Hlt.
    { apply lookup_lt_Some in Hy. lia. }
    destruct (lookup_lt_is_Some_2 rows i Hlt) as [row Hrow].
    exists i, row. split; [exact Hi | ]. split; [exact Hrow | ].
    unfold kappa, dict_get. cbn [temperatures dict kappa_format].
    rewrite Hin, Hi, Hk. cbn [negb rbind item]. rewrite Hrow. cbn [rbind].
    split; intros ->; reflexivity.
Qed.

End KappaMore.

Lemma Kappa_default_temperatures_witness :
  exists self,
    Kappa_init examples.kappa_file (Some []) "scalar_xx" = Returned self /\
    temperatures self = [300%Q] /\
    forall T, py_in T [300%Q] = true ->
      exists i row,
        py_index T [300%Q] = Returned i /\
        [Array [Scalar 130; Scalar 130; Scalar 130;
                Scalar 0; Scalar 0; Scalar 0]%Q] !! i = Some row /\
        ("scalar_xx" = "tensor" -> kappa self T = Returned (Some row)) /\
        ("scalar_xx" = "scalar_xx" ->
         kappa self T = let? x := item row 0 in Returned (Some x)).
Proof.
  apply (Kappa_default_temperatures examples.kappa_file (Some []) [300%Q]
           [Array [Scalar 0; Scalar 0; Scalar 0]%Q]
           [Array [Scalar 130; Scalar 130; Scalar 130;
                   Scalar 0; Scalar 0; Scalar 0]%Q] "scalar_xx").
  - by right.
  - vm_compute. reflexivity.
  - vm_compute. reflexivity.
  - vm_compute. reflexivity.
  - cbn. lia.
Defined.

(** ** select_jdos as a whole *)

Section SelectMore.

Context {F : Type} `{Arith F}.

Lemma for_each_state {A S : Type} (body : S -> A -> py S) (l : list A)
    (st : S) (s : state) :
  (forall st x s, (body st x s).2 = s) ->
  (for_each body l st s).2 = s.
Proof.
  intros Hbody. revert st. induction l as [| x l IH]; intros st;
    [reflexivity | ].
  cbn [for_each]. unfold bind. specialize (Hbody st x s).
  destruct (body st x s) as [[st' | e] s']; cbn in Hbody; subst s';
    [apply IH | reflexivity].
Qed.

Lemma for_each_invariant {A S : Type} (P : S -> Prop)
    (body : S -> A -> py S) (l : list A) (st st' : S) (s s' : state) :
  (forall st x s st' s', P st -> body st x s = (Returned st', s') -> P st') ->
  P st -> for_each body l st s = (Returned st', s') -> P st'.
Proof.
  intros Hbody. revert st s. induction l as [| x l IH]; intros st s HP Hrun.
  - cbn in Hrun. by injection Hrun as <- <-.
  - cbn [for_each] in Hrun. unfold bind in Hrun.
    destruct (body st x s) as [[st1 | e] s1] eqn:E; [ | discriminate].
    apply (IH st1 s1); [ | exact Hrun]. by apply (Hbody st x s st1 s1).
Qed.

Lemma select_body_state (self : JDOS) (width : nat)
    (jdos_ir : list (list F)) (ggp : nat * Z) (s : state) :
  (select_body self width jdos_ir ggp s).2 = s.
Proof.
  unfold select_body, bind at 1, read_file at 1.
  destruct (files s !! jdos_file self ggp.2); [ | reflexivity].
  unfold bind at 1, lift at 1. destruct (genfromtxt self _); [ | reflexivity].
  unfold bind at 1, lift at 1. destruct (frequencies self !! ggp.1);
    [ | reflexivity].
  unfold bind at 1, lift at 1. destruct (select_row _ _); [ | reflexivity].
  by destruct (Nat.eqb _ _).
Qed.

(** X24: [select_jdos] only reads: whether it returns or raises, the disk
    and the log are afterwards as they were. *)
Theorem select_jdos_reads_only (self : JDOS) (s : state) :
  (select_jdos self s).2 = s.
Proof.
  unfold select_jdos, bind at 1, lift at 1.
  destruct (frequencies self !! 0); [ | reflexivity].
  apply for_each_state. intros st x s0. apply select_body_state.
Qed.

(** X25: what [select_jdos] returns has one row for each irreducible grid
    point, and each row has as many entries as the first q-point has
    branches. *)
Theorem select_jdos_shape (self : JDOS) (s s' : state)
    (jdos_ir : list (list F)) :
  select_jdos self s = (Returned jdos_ir, s') ->
  exists first,
    frequencies self !! 0 = Some first /\
    length jdos_ir = length (gridpt_uids self) /\
    Forall (fun row => length row = length first) jdos_ir.
Proof.
  unfold select_jdos, bind at 1, lift at 1.
  destruct (frequencies self !! 0) as [first | ]; [ | discriminate].
  intros Hrun. exists first. split; [reflexivity | ].
  revert Hrun.
  apply (for_each_invariant
           (fun st => length st = length (gridpt_uids self) /\
                      Forall (fun row => length row = length first) st)).
  - intros st [g gp] s0 st' s0' [Hlen Hrows] Hbody.
    unfold select_body in Hbody. cbn [fst snd] in Hbody.
    unfold bind at 1, read_file at 1 in Hbody.
    destruct (files s0 !! jdos_file self gp); [ | discriminate].
    unfold bind at 1, lift at 1 in Hbody.
    destruct (genfromtxt self _); [ | discriminate].
    unfold bind at 1, lift at 1 in Hbody.
    destruct (frequencies self !! g); [ | discriminate].
    unfold bind at 1, lift at 1 in Hbody.
    destruct (select_row _ _) as [row | ]; [ | discriminate].
    destruct (Nat.eqb_spec (length row) (length first)) as [Hrow | _];
      [ | discriminate].
    injection Hbody as <- <-. split.
    + by rewrite length_insert.
    + by apply Forall_insert.
  - split; [by rewrite length_replicate | ].
    apply Forall_replicate. by rewrite length_replicate.
Qed.

(** *** A branch at or above the last frequency of the table *)

Lemma rmap_total {A B : Type} (f : A -> result B) (g : A -> B)
    (l : list A) :
  (forall a, f a = Returned (g a)) -> rmap f l = Returned (map g l).
Proof.
  intros Hf. induction l as [| a l IH]; [reflexivity | ].
  cbn [rmap map]. by rewrite Hf, IH.
Qed.

Lemma rmap_raises {A B : Type} (f : A -> result B) (err : exn)
    (l : list A) (x : A) :
  (forall a e, f a = Raised e -> e = err) ->
  x ∈ l -> f x = Raised err -> rmap f l = Raised err.
Proof.
  intros Honly Hin Hx. induction Hin as [x l | x y l _ IH].
  - cbn [rmap]. by rewrite Hx.
  - cbn [rmap]. destruct (f y) as [b | e] eqn:Ey.
    + cbn [rbind]. by rewrite (IH Hx).
    + by rewrite (Honly y e Ey).
Qed.

Lemma np_getitem_raises (a : list F) (i : Z) (e : exn) :
  np_getitem a i = Raised e -> e = IndexError.
Proof.
  unfold np_getitem. destruct (_ && _)%bool; [ | congruence].
  destruct (a !! _); congruence.
Qed.

Lemma bin_average_raises (N2 : list F) (i : nat) (e : exn) :
  bin_average N2 i = Raised e -> e = IndexError.
Proof.
  unfold bin_average.
  destruct (np_getitem N2 (Z.of_nat i)) as [hi | e1] eqn:E1.
  2:{ cbn. intros [= <-]. by apply np_getitem_raises in E1. }
  cbn [rbind].
  destruct (np_getitem N2 (Z.of_nat i - 1)) as [lo | e2] eqn:E2;
    [discriminate | ].
  cbn. intros [= <-]. by apply np_getitem_raises in E2.
Qed.

Lemma bin_average_at_length (N2 : list F) :
  bin_average N2 (length N2) = Raised IndexError.
Proof.
  unfold bin_average, np_getitem.
  destruct (Z.ltb_spec (Z.of_nat (length N2)) 0); [lia | ].
  destruct (Z.ltb_spec (Z.of_nat (length N2)) (Z.of_nat (length N2)));
    [lia | ].
  by rewrite andb_false_r.
Qed.

Lemma searchsorted_right_all (freq : list F) (x : F) :
  Forall (fun y => fltb x y = false) freq ->
  searchsorted_right freq x = length freq.
Proof.
  induction 1 as [| y freq Hy _ IH]; [reflexivity | ].
  cbn [searchsorted_right length]. by rewrite Hy, IH.
Qed.

(** X26: on a table whose frequencies do not decrease, a branch frequency
    that is below none of them gets the index [len(freq)] from
    [np.digitize], which is out of range for [N2]: the loop body of
    [select_jdos] raises IndexError whenever the branches of the grid
    point hold such a frequency. *)
Theorem select_row_beyond_last_edge (data : list (list F))
    (freq c1 c2 branches : list F) (x : F) :
  column 0 data = Returned freq ->
  column 1 data = Returned c1 ->
  column 2 data = Returned c2 ->
  monotonicity freq = 1%Z ->
  x ∈ branches ->
  Forall (fun y => fltb x y = false) freq ->
  select_row data branches = Raised IndexError.
Proof.
  intros H0 H1 H2 Hm Hin Hx. unfold select_row.
  rewrite H0, H1, H2. cbn [rbind].
  rewrite (rmap_total _ (searchsorted_right freq)).
  2:{ intros a. unfold digitize. by rewrite Hm. }
  cbn [rbind].
  apply (rmap_raises _ IndexError _ (searchsorted_right freq x)).
  - apply bin_average_raises.
  - by apply (list_elem_of_fmap_2 (searchsorted_right freq)).
  - rewrite (searchsorted_right_all freq x Hx).
    replace (length freq) with (length (zip_with fadd c1 c2));
      [apply bin_average_at_length | ].
    rewrite length_zip_with.
    rewrite (column_length 0 data freq H0), (column_length 1 data c1 H1),
      (column_length 2 data c2 H2). lia.
Qed.

End SelectMore.

Lemma select_jdos_shape_witness :
  exists first,
    frequencies examples.jdos_obj !! 0 = Some first /\
    length [[44 # 2; 55 # 2]%Q] = length (gridpt_uids examples.jdos_obj) /\
    Forall (fun row => length row = length first) [[44 # 2; 55 # 2]%Q].
Proof.
  apply (select_jdos_shape examples.jdos_obj examples.s_jdos examples.s_jdos
           [[44 # 2; 55 # 2]%Q]).
  vm_compute. reflexivity.
Defined.

Lemma select_row_beyond_last_edge_witness :
  select_row examples.jdos_table [1 # 2; 3]%Q = Raised IndexError.
Proof.
  apply (select_row_beyond_last_edge examples.jdos_table
           [1; 2; 3]%Q [10; 20; 30]%Q [1; 2; 3]%Q [1 # 2; 3]%Q 3%Q);
    try reflexivity.
  - apply elem_of_cons. right. apply elem_of_cons. by left.
  - repeat constructor.
Defined.

End outputs_more_proofs.
